(** * Clinical-trials scraper: a shallow embedding of [scraper.py]

    The development follows the three classes of the program:
    - [ClinicalTrialsDB]: the table [clinical_trials], its generated
      columns and the upsert statement of [insert_trial];
    - [ClinicalTrialsClient]: the request built by [search_studies] and the
      retry decorator around it;
    - [scrape_trials]: input validation, the page loop, the per-study
      handler and the record bound.

    Python values are JSON documents ([json]); exceptions are values of
    [exn] carried by [result]; the network, the clock of the database
    server and the built-in conversions of the database engine are
    parameters. *)

From Stdlib Require Import ZArith String Ascii List Bool Floats Lia.
From stdpp Require Import base option gmap strings list.

Set Warnings "-register-all".
Set Default Proof Using "Type".

Local Open Scope Z_scope.
Local Open Scope string_scope.

(** ** Exceptions and results *)

(** The exception classes that the program raises or catches.
    [RequestException] stands for the [requests.exceptions] hierarchy and
    carries which failure it was. *)
Inductive request_failure :=
  | Timeout
  | ConnectionError
  | HTTPError (status : Z)
  | JSONDecodeError.

Inductive exn :=
  | ValueError
  | AttributeError
  | TypeError
  | RequestException (f : request_failure)
  | RetryError (last_attempt : exn)
  | ProgrammingError
  | DataError
  | InFailedSqlTransaction
  | OperationalError.

Inductive result (A : Type) :=
  | Return (a : A)
  | Raise (e : exn).
Arguments Return {A} a.
Arguments Raise {A} e.

#[global] Instance result_ret : MRet result := fun A a => Return a.
#[global] Instance result_bind : MBind result := fun A B k r =>
  match r with
  | Return a => k a
  | Raise e => Raise e
  end.

(** ** Text *)

Module Text.

(** [starts_with p s]: [p] is a prefix of [s]. *)
Fixpoint starts_with (p s : string) : bool :=
  match p, s with
  | EmptyString, _ => true
  | String _ _, EmptyString => false
  | String a p', String b s' => if Ascii.eqb a b then starts_with p' s' else false
  end.

(** SQL [position(sub in s)]: the 1-based index of the first occurrence
    of [sub] in [s], 0 when there is none; the empty string occurs at 1. *)
Fixpoint position (sub s : string) : nat :=
  if starts_with sub s then 1%nat
  else match s with
       | EmptyString => 0%nat
       | String _ s' => match position sub s' with
                        | O => 0%nat
                        | S k => S (S k)
                        end
       end.

(** [occurs sub s]: [sub] is a substring of [s]. *)
Definition occurs (sub s : string) : Prop :=
  exists pre post, s = pre +:+ sub +:+ post.

Fixpoint all_spaces (s : string) : bool :=
  match s with
  | EmptyString => true
  | String c s' => if Ascii.eqb c " "%char then all_spaces s' else false
  end.

Definition take (n : nat) (s : string) : string := substring 0 n s.
Definition drop (n : nat) (s : string) : string :=
  substring n (String.length s - n) s.

(** The double quote character. *)
Definition dquote : ascii := ascii_of_nat 34.

(** Python's [f'"{s}"']. *)
Definition quoted (s : string) : string :=
  String dquote s +:+ String dquote EmptyString.

End Text.

(** ** JSON documents and the Python operations on them *)

(** What [response.json()] returns: [None], [bool], [int], [float], [str],
    [list] and [dict] (a [dict] keeps its keys in insertion order, each key
    once). *)
Inductive json :=
  | JNull
  | JBool (b : bool)
  | JInt (z : Z)
  | JFloat (f : float)
  | JStr (s : string)
  | JArr (items : list json)
  | JObj (fields : list (string * json)).

Fixpoint assoc (k : string) (fields : list (string * json)) : option json :=
  match fields with
  | [] => None
  | (k', v) :: rest => if String.eqb k k' then Some v else assoc k rest
  end.

Module Py.

(** Truth value of an object, as [if x:] and [not x] test it. *)
Definition truthy (j : json) : bool :=
  match j with
  | JNull => false
  | JBool b => b
  | JInt z => negb (Z.eqb z 0)
  | JFloat f => negb (PrimFloat.eqb f 0%float)
  | JStr s => negb (String.eqb s "")
  | JArr items => match items with [] => false | _ => true end
  | JObj fields => match fields with [] => false | _ => true end
  end.

(** Truth value of an [Optional[str]] argument. *)
Definition truthy_str (o : option string) : bool :=
  match o with
  | Some (String _ _) => true
  | _ => false
  end.

(** [d.get(k, default)]: only a [dict] has the method; on any other
    object the attribute lookup raises [AttributeError]. *)
Definition get (d : json) (k : string) (default : json) : result json :=
  match d with
  | JObj fields => Return (match assoc k fields with
                           | Some v => v
                           | None => default
                           end)
  | _ => Raise AttributeError
  end.

(** [k in d] for a [dict]. *)
Definition has_key (k : string) (fields : list (string * json)) : bool :=
  match assoc k fields with Some _ => true | None => false end.

End Py.

(** ** The database engine *)

(** The built-in conversions of the database engine that the statements of
    [ClinicalTrialsDB] call. They are not part of the program: every
    result below holds for any choice of them. *)
Class Engine := {
  (** whether the text [json.dumps(data)] is accepted as a [jsonb] value *)
  jsonb_in : json -> bool;
  (** the text form of a [jsonb] value ([::text], and [->>] on a value that
      is neither a string nor a boolean nor null) *)
  jsonb_out : json -> string;
  (** the [::boolean] conversion of a text; [None] is a syntax error *)
  boolin : string -> option bool;
  (** the text a query parameter that is not a [str] is stored as in a
      [VARCHAR] column; [None] when the driver or the engine refuses it *)
  text_param : json -> option string
}.

Module Sql.
Section WithEngine.
Context `{Engine}.

(** [j -> 'k'] on a nullable [jsonb]. *)
Definition field (j : option json) (k : string) : option json :=
  match j with
  | Some (JObj fields) => assoc k fields
  | _ => None
  end.

(** [j -> i] on a nullable [jsonb], for an index [i >= 0]. *)
Definition element (j : option json) (i : nat) : option json :=
  match j with
  | Some (JArr items) => nth_error items i
  | _ => None
  end.

(** [j ->> 'k']: the field as text; a JSON null gives SQL [NULL]. *)
Definition field_text (j : option json) (k : string) : option string :=
  match field j k with
  | None | Some JNull => None
  | Some (JStr s) => Some s
  | Some (JBool true) => Some "true"
  | Some (JBool false) => Some "false"
  | Some v => Some (jsonb_out v)
  end.

(** [jsonb_array_length(j)]: strict, and an error on anything but an
    array. *)
Definition jsonb_array_length (j : option json) : result (option nat) :=
  match j with
  | None => Return None
  | Some (JArr items) => Return (Some (List.length items))
  | Some _ => Raise DataError
  end.

(** Storing a text in a [VARCHAR(n)] column: a longer value is an error
    unless the excess is spaces, which are cut. *)
Definition varchar (n : nat) (s : string) : result string :=
  if (String.length s <=? n)%nat then Return s
  else if Text.all_spaces (Text.drop n s) then Return (Text.take n s)
  else Raise DataError.

(** A strict conversion applied to a nullable value. *)
Definition nullable {A B} (f : A -> result B) (v : option A) : result (option B) :=
  match v with
  | None => Return None
  | Some a => b ← f a; Return (Some b)
  end.

(** [(t)::boolean] on a nullable text. *)
Definition to_boolean (s : string) : result bool :=
  match boolin s with
  | Some b => Return b
  | None => Raise DataError
  end.

End WithEngine.
End Sql.

(** ** ClinicalTrialsDB *)

(** One row of [clinical_trials]. The three generated columns are stored
    with the row, computed from [data] whenever the row is written. *)
Record row := {
  id : Z;
  nct_id : string;
  data : json;
  has_results : option bool;
  overall_status : option string;
  phase : option string;
  search_terms : option string;
  created_at : Z;
  last_updated_at : Z
}.

(** The table as seen through the connection [self.conn]: its rows by the
    unique key [nct_id], the sequence behind [id SERIAL], and whether the
    open transaction has failed (a statement that raised was never rolled
    back). *)
Record ClinicalTrialsDB := {
  clinical_trials : gmap string row;
  id_seq : Z;
  failed_transaction : bool
}.

Section Repository.
Context `{Engine}.

(** [GENERATED ALWAYS AS ((data->>'hasResults')::boolean)]. *)
Definition has_results_of (d : json) : result (option bool) :=
  Sql.nullable Sql.to_boolean (Sql.field_text (Some d) "hasResults").

(** [GENERATED ALWAYS AS
    ((data->'protocolSection'->'statusModule'->>'overallStatus')::text)]
    in a [VARCHAR(50)] column. *)
Definition overall_status_of (d : json) : result (option string) :=
  Sql.nullable (Sql.varchar 50)
    (Sql.field_text
       (Sql.field (Sql.field (Some d) "protocolSection") "statusModule")
       "overallStatus").

(** [GENERATED ALWAYS AS (CASE WHEN jsonb_array_length(phases) > 0
    THEN (phases->0)::text ELSE NULL END)] in a [VARCHAR(50)] column,
    where [phases] is [data->'protocolSection'->'designModule'->'phases']. *)
Definition phase_of (d : json) : result (option string) :=
  let phases :=
    Sql.field (Sql.field (Sql.field (Some d) "protocolSection") "designModule")
      "phases" in
  n ← Sql.jsonb_array_length phases;
  match n with
  | Some (S _) => Sql.nullable (Sql.varchar 50) (jsonb_out <$> Sql.element phases 0)
  | _ => Return None
  end.

(** [create_tables]: [CREATE TABLE IF NOT EXISTS] on the server's
    database, which holds the table (rows and sequence) or not yet. *)
Definition create_tables (server : option (gmap string row * Z))
  : gmap string row * Z :=
  match server with
  | Some t => t
  | None => (∅, 1)
  end.

(** [ClinicalTrialsDB()]: connect, then [create_tables]. *)
Definition connect (server : option (gmap string row * Z)) : ClinicalTrialsDB :=
  let t := create_tables server in
  {| clinical_trials := t.1; id_seq := t.2; failed_transaction := false |}.

(** The [CASE] of the [ON CONFLICT] clause: the stored [search_terms]
    against [EXCLUDED.search_terms]. *)
Definition merge_search_terms (stored : option string) (excluded : string)
  : option string :=
  match stored with
  | None => Some excluded
  | Some cur =>
      if (0 <? Text.position excluded cur)%nat then Some cur
      else Some (cur +:+ "; " +:+ excluded)
  end.

(** The row proposed for insertion by
    [VALUES (nct_id, data, search_terms, NOW())]: [id] from the sequence,
    [created_at] from its default. *)
Definition proposed_row (db : ClinicalTrialsDB) (nct : string) (d : json)
    (terms : string) (now : Z) : result row :=
  key ← Sql.varchar 255 nct;
  if negb (jsonb_in d) then Raise DataError else
  hr ← has_results_of d;
  os ← overall_status_of d;
  ph ← phase_of d;
  Return {| id := id_seq db; nct_id := key; data := d;
            has_results := hr; overall_status := os; phase := ph;
            search_terms := Some terms;
            created_at := now; last_updated_at := now |}.


(** [ON CONFLICT (nct_id) DO UPDATE SET data = EXCLUDED.data,
    search_terms = CASE ... END, last_updated_at = NOW()]. *)
Definition on_conflict_update (old excluded : row) (terms : string) (now : Z)
  : row :=
  {| id := id old; nct_id := nct_id old; data := data excluded;
     has_results := has_results excluded;
     overall_status := overall_status excluded;
     phase := phase excluded;
     search_terms := merge_search_terms (search_terms old) terms;
     created_at := created_at old; last_updated_at := now |}.

(** The fields of a row that a repeated upsert is to keep. *)
Definition kept_fields (r : row)
  : option bool * option string * option string * option string :=
  (has_results r, overall_status r, phase r, search_terms r).

(** [insert_trial]: executes the upsert at server time [now], commits,
    and returns the [id] of the row written. A statement on a failed
    transaction is refused; a statement that raises leaves the
    transaction failed, since nothing rolls it back. *)
Definition insert_trial (db : ClinicalTrialsDB) (nct : string) (d : json)
    (terms : string) (now : Z) : result Z * ClinicalTrialsDB :=
  if failed_transaction db then (Raise InFailedSqlTransaction, db)
  else
    match proposed_row db nct d terms now with
    | Raise e =>
        (Raise e, {| clinical_trials := clinical_trials db;
                     id_seq := id_seq db + 1;
                     failed_transaction := true |})
    | Return new =>
        let written :=
          match clinical_trials db !! nct_id new with
          | None => new
          | Some old => on_conflict_update old new terms now
          end in
        (Return (id written),
         {| clinical_trials := <[nct_id new := written]> (clinical_trials db);
            id_seq := id_seq db + 1;
            failed_transaction := false |})
    end.

End Repository.

(** ** The world outside the program *)

(** What one [requests.get] comes back with: no response at all (timeout,
    connection failure), or a response with a status and a body that
    decodes as JSON or does not. *)
Inductive reply :=
  | NoResponse (f : request_failure)
  | HttpResponse (status : Z) (body : option json).

(** The effects of a run, in the order they happen: a request sent with
    its query parameters, a back-off delay slept, a connection to the
    database opened or closed, a call of [insert_trial] with its key and
    whether it was committed. *)
Inductive event :=
  | Requested (params : gmap string json)
  | Slept (delay : Z)
  | Connected
  | Executed (key : string) (committed : bool)
  | Closed.

(** The world of a run: its effects so far (the most recent first), the
    database on the server (its table and sequence, once created) and
    whether the server accepts connections. *)
Record world := {
  trace : list event;
  database : option (gmap string row * Z);
  database_up : bool
}.

Definition record (e : event) (w : world) : world :=
  {| trace := e :: trace w; database := database w; database_up := database_up w |}.

(** Readings of a trace, each oldest first. *)
Fixpoint requests (t : list event) : list (gmap string json) :=
  match t with
  | [] => []
  | Requested params :: t => requests t ++ [params]
  | _ :: t => requests t
  end.

Fixpoint sleeps (t : list event) : list Z :=
  match t with
  | [] => []
  | Slept delay :: t => sleeps t ++ [delay]
  | _ :: t => sleeps t
  end.

Fixpoint stored (t : list event) : list string :=
  match t with
  | [] => []
  | Executed key true :: t => stored t ++ [key]
  | _ :: t => stored t
  end.

Fixpoint statements (t : list event) : nat :=
  match t with
  | [] => 0
  | Executed _ _ :: t => S (statements t)
  | _ :: t => statements t
  end.

(** [grows w w' ext]: the world [w'] is [w] after the effects [ext] (the
    most recent first), the database on the server being the same. *)
Definition grows (w w' : world) (ext : list event) : Prop :=
  trace w' = (ext ++ trace w)%list /\
  database w' = database w /\ database_up w' = database_up w.

(** Where a call of [search_studies] leaves the world [w]: [k] requests
    with the same parameters and [k - 1] waits of 4 were added, nothing
    else happened. *)
Definition after_attempts (k : nat) (params : gmap string json) (w w' : world) : Prop :=
  requests (trace w') = (requests (trace w) ++ repeat params k)%list /\
  sleeps (trace w') = (sleeps (trace w) ++ repeat 4 (k - 1))%list /\
  stored (trace w') = stored (trace w) /\
  statements (trace w') = statements (trace w) /\
  database w' = database w /\ database_up w' = database_up w.

(** ** The retry decorator *)

Module Tenacity.

(** [stop_after_attempt(max_attempt_number)]. *)
Definition stop_after_attempt (max_attempt_number attempt_number : nat) : bool :=
  (max_attempt_number <=? attempt_number)%nat.

(** [wait_exponential(multiplier, min, max)]: after attempt [n] the wait is
    [multiplier * 2 ** (n - 1)], kept between [min] and [max]. *)
Definition wait_exponential (multiplier min max : Z) (attempt_number : nat) : Z :=
  Z.max (Z.max 0 min)
        (Z.min (multiplier * 2 ^ (Z.of_nat attempt_number - 1)) max).

(** [@retry(stop=..., wait=...)] around [f], from attempt [attempt_number]
    on: a result is returned; any exception is retried after the wait,
    until [stop] holds, when [RetryError] wraps the last exception (the
    decorator sets no [retry] predicate and no [reraise]). [fuel] bounds
    the retries that follow this attempt. *)
Fixpoint retry {A} (stop : nat -> bool) (wait : nat -> Z)
    (f : world -> result A * world) (fuel : nat) (attempt_number : nat)
    (w : world) : result A * world :=
  match f w with
  | (Return a, w1) => (Return a, w1)
  | (Raise e, w1) =>
      if stop attempt_number then (Raise (RetryError e), w1)
      else match fuel with
           | O => (Raise (RetryError e), w1)
           | S fuel' =>
               retry stop wait f fuel' (S attempt_number)
                     (record (Slept (wait attempt_number)) w1)
           end
  end.

End Tenacity.

(** ** ClinicalTrialsClient *)

Section Client.

(** The reply of the registry to a request, given the number [n] of
    requests sent before it and its query parameters. *)
Variable network : nat -> gmap string json -> reply.

Definition has_results_clause : string := "AREA[HasResults] true".

(** The dictionary [params] that [search_studies] builds. [page_token] is
    [None] ([JNull]) or what the previous page carried. *)
Definition build_params (condition intervention other_terms : option string)
    (page_token : json) (results_only : bool) : gmap string json :=
  let params : gmap string json :=
    <["pageSize" := JInt 100]> (<["format" := JStr "json"]> ∅) in
  let params :=
    match condition with
    | Some (String _ _ as c) => <["query.cond" := JStr (Text.quoted c)]> params
    | _ => params
    end in
  let params :=
    match intervention with
    | Some (String _ _ as i) => <["query.intr" := JStr (Text.quoted i)]> params
    | _ => params
    end in
  let params :=
    match other_terms with
    | Some (String _ _ as o) => <["query.term" := JStr (Text.quoted o)]> params
    | _ => params
    end in
  let params :=
    if results_only then
      match params !! "query.term" with
      | Some (JStr term) =>
          <["query.term" := JStr (term +:+ " AND " +:+ has_results_clause)]> params
      | Some _ => params (* not reached: only [str] is stored under this key *)
      | None => <["query.term" := JStr has_results_clause]> params
      end
    else params in
  if Py.truthy page_token then <["pageToken" := page_token]> params else params.

(** What the [try] block makes of a reply: [requests.get] raises on a
    transport failure, [raise_for_status] on a 4xx or 5xx status,
    [response.json()] on a body that is not JSON; the [except] clause
    prints and re-raises. *)
Definition read_reply (r : reply) : result json :=
  match r with
  | NoResponse f => Raise (RequestException f)
  | HttpResponse status body =>
      if Z.leb 400 status && Z.ltb status 600
      then Raise (RequestException (HTTPError status))
      else match body with
           | None => Raise (RequestException JSONDecodeError)
           | Some j => Return j
           end
  end.

(** The body of [search_studies], one attempt. *)
Definition search_studies_attempt (condition intervention other_terms : option string)
    (page_token : json) (results_only : bool) (w : world) : result json * world :=
  let params := build_params condition intervention other_terms page_token results_only in
  (read_reply (network (List.length (requests (trace w))) params),
   record (Requested params) w).

(** [search_studies] as decorated:
    [@retry(stop=stop_after_attempt(3),
            wait=wait_exponential(multiplier=1, min=4, max=10))]. *)
Definition search_studies (condition intervention other_terms : option string)
    (page_token : json) (results_only : bool) (w : world) : result json * world :=
  Tenacity.retry (Tenacity.stop_after_attempt 3)
    (Tenacity.wait_exponential 1 4 10)
    (search_studies_attempt condition intervention other_terms page_token results_only)
    3 1 w.

End Client.

(** ** scrape_trials *)

(** How the body of [for study in studies] ends: with the next study, or
    with [return total_stored]. *)
Inductive signal :=
  | NextStudy
  | ReturnTotal.

(** The ways out of [while True]: the outer [except Exception] (a page
    that could not be fetched, or [len(studies)] on an object without a
    length), a response without [studies], an empty [studies], the bound on
    the records, a page without [nextPageToken]. *)
Inductive ending :=
  | Caught (e : exn)
  | InvalidResponse
  | NoStudies
  | BoundReached
  | NoMorePages.

(** How one turn of [while True] ends. *)
Inductive step :=
  | Leave (why : ending)
  | NextPage (next_page_token : json).

Section Ingestor.
Context `{Engine}.

(** The reply of the registry to a request, given the number [n] of
    requests sent before it. *)
Variable network : nat -> gmap string json -> reply.

(** The time [NOW()] of the database server at a call of [insert_trial],
    given the number [n] of calls made before it. *)
Variable now : nat -> Z.

(** [any([condition, intervention, other_terms])]. *)
Definition any_filter (condition intervention other_terms : option string) : bool :=
  Py.truthy_str condition || Py.truthy_str intervention || Py.truthy_str other_terms.

(** [search_terms_str]: the annotation written with every record of the
    run. *)
Definition search_terms_str (condition intervention other_terms : option string)
    (results_only : bool) : string :=
  let search_terms : list string := [] in
  let search_terms :=
    match condition with
    | Some (String _ _ as c) => (search_terms ++ ["condition:" +:+ c])%list
    | _ => search_terms
    end in
  let search_terms :=
    match intervention with
    | Some (String _ _ as i) => (search_terms ++ ["intervention:" +:+ i])%list
    | _ => search_terms
    end in
  let search_terms :=
    match other_terms with
    | Some (String _ _ as o) => (search_terms ++ ["other_terms:" +:+ o])%list
    | _ => search_terms
    end in
  let search_terms :=
    if results_only then (search_terms ++ ["has_results:true"])%list else search_terms in
  String.concat "; " search_terms.

(** [max_trials and total_stored >= max_trials]. *)
Definition bound_reached (max_trials : option Z) (total_stored : nat) : bool :=
  match max_trials with
  | Some m => negb (Z.eqb m 0) && Z.leb m (Z.of_nat total_stored)
  | None => false
  end.

(** The text the driver sends for the object found under [nctId]: a [str]
    as it is, any other object as the driver adapts it, if it does. *)
Definition key_of (nct : json) : option string :=
  match nct with
  | JStr s => Some s
  | other => text_param other
  end.

(** The call [db.insert_trial(nct_id, study, search_terms_str)]. *)
Definition call_insert_trial (db : ClinicalTrialsDB) (nct : json) (study : json)
    (terms : string) (w : world) : result Z * ClinicalTrialsDB * world :=
  match key_of nct with
  | None => (Raise ProgrammingError, db, w)
  | Some k =>
      match insert_trial db k study terms (now (statements (trace w))) with
      | (Return i, db1) => (Return i, db1, record (Executed k true) w)
      | (Raise e, db1) => (Raise e, db1, record (Executed k false) w)
      end
  end.

(** The statements of the inner [try], up to the test of [nct_id]. *)
Definition identify (study : json) : result (json * json) :=
  protocol_section ← Py.get study "protocolSection" (JObj []);
  identification ← Py.get protocol_section "identificationModule" (JObj []);
  status_module ← Py.get protocol_section "statusModule" (JObj []);
  nct ← Py.get identification "nctId" JNull;
  Return (status_module, nct).


(** The identifier with which [insert_trial] is called for a study, if the
    inner [try] block comes to the call. *)
Definition submitted (study : json) : option json :=
  match identify study with
  | Return (status_module, nct) =>
      if Py.truthy nct then
        match Py.get status_module "overallStatus" (JStr "UNKNOWN") with
        | Return _ => Some nct
        | Raise _ => None
        end
      else None
  | Raise _ => None
  end.


(** The inner [try] block for one study. *)
Definition study_body (terms : string) (max_trials : option Z) (study : json)
    (total_stored : nat) (db : ClinicalTrialsDB) (w : world)
    : result signal * (nat * ClinicalTrialsDB * world) :=
  match identify study with
  | Raise e => (Raise e, (total_stored, db, w))
  | Return (status_module, nct) =>
      if negb (Py.truthy nct) then (Return NextStudy, (total_stored, db, w))
      else
        match (has_results ← Py.get study "hasResults" (JBool false);
               Py.get status_module "overallStatus" (JStr "UNKNOWN")) with
        | Raise e => (Raise e, (total_stored, db, w))
        | Return status =>
            match call_insert_trial db nct study terms w with
            | (Raise e, db1, w1) => (Raise e, (total_stored, db1, w1))
            | (Return _, db1, w1) =>
                let total_stored := S total_stored in
                if bound_reached max_trials total_stored
                then (Return ReturnTotal, (total_stored, db1, w1))
                else (Return NextStudy, (total_stored, db1, w1))
            end
        end
  end.

(** One study with its handler: [except Exception: continue]. *)
Definition process_study (terms : string) (max_trials : option Z) (study : json)
    (total_stored : nat) (db : ClinicalTrialsDB) (w : world)
    : signal * (nat * ClinicalTrialsDB * world) :=
  match study_body terms max_trials study total_stored db w with
  | (Return s, st) => (s, st)
  | (Raise _, st) => (NextStudy, st)
  end.

(** [for study in studies]. *)
Fixpoint process_studies (terms : string) (max_trials : option Z)
    (studies : list json) (total_stored : nat) (db : ClinicalTrialsDB) (w : world)
    : signal * (nat * ClinicalTrialsDB * world) :=
  match studies with
  | [] => (NextStudy, (total_stored, db, w))
  | study :: rest =>
      match process_study terms max_trials study total_stored db w with
      | (ReturnTotal, st) => (ReturnTotal, st)
      | (NextStudy, (total_stored, db, w)) =>
          process_studies terms max_trials rest total_stored db w
      end
  end.

(** What [len(studies)] and the iteration make of a truthy [studies]: the
    items of a [list], the keys of a [dict], the characters of a [str];
    a number or [True] has no [len]. *)
Definition iterate (studies : json) : result (list json) :=
  match studies with
  | JArr items => Return items
  | JObj fields => Return (map (fun kv => JStr kv.1) fields)
  | JStr s => Return (map (fun c => JStr (String c EmptyString)) (list_ascii_of_string s))
  | _ => Raise TypeError
  end.

(** One turn of [while True]: the page is fetched and handled, and the
    loop goes on with the next page token or leaves. *)
Definition page_body (condition intervention other_terms : option string)
    (max_trials : option Z) (results_only : bool) (terms : string)
    (next_page_token : json) (total_stored : nat) (db : ClinicalTrialsDB)
    (w : world) : step * (nat * ClinicalTrialsDB * world) :=
  match search_studies network condition intervention other_terms
          next_page_token results_only w with
  | (Raise e, w) => (Leave (Caught e), (total_stored, db, w))
  | (Return (JObj fields as response), w) =>
      if negb (Py.truthy response) || negb (Py.has_key "studies" fields)
      then (Leave InvalidResponse, (total_stored, db, w))
      else
        let studies := default (JArr []) (assoc "studies" fields) in
        if negb (Py.truthy studies) then (Leave NoStudies, (total_stored, db, w))
        else
          match iterate studies with
          | Raise e => (Leave (Caught e), (total_stored, db, w))
          | Return items =>
              match process_studies terms max_trials items total_stored db w with
              | (ReturnTotal, st) => (Leave BoundReached, st)
              | (NextStudy, st) =>
                  let next_page_token := default JNull (assoc "nextPageToken" fields) in
                  if negb (Py.truthy next_page_token)
                  then (Leave NoMorePages, st)
                  else (NextPage next_page_token, st)
              end
          end
  (* any other object: it is falsy, or ['studies' in response] is false
     or raises, or [response.get] raises; the loop is left each time *)
  | (Return _, w) => (Leave InvalidResponse, (total_stored, db, w))
  end.

(** [while True], for at most [fuel] pages; [None] when the pages have not
    ended by then. Every way out of the loop arrives at the statement
    [return total_stored]. *)
Fixpoint scrape_loop (fuel : nat) (condition intervention other_terms : option string)
    (max_trials : option Z) (results_only : bool) (terms : string)
    (next_page_token : json) (total_stored : nat) (db : ClinicalTrialsDB)
    (w : world) : option (nat * ClinicalTrialsDB * world) :=
  match fuel with
  | O => None
  | S fuel =>
      match page_body condition intervention other_terms max_trials results_only
              terms next_page_token total_stored db w with
      | (Leave _, st) => Some st
      | (NextPage next_page_token, (total_stored, db, w)) =>
          scrape_loop fuel condition intervention other_terms max_trials
            results_only terms next_page_token total_stored db w
      end
  end.

(** [ClinicalTrialsDB()]: the connection and [create_tables]. *)
Definition open_db (w : world) : result ClinicalTrialsDB * world :=
  if database_up w
  then (Return (connect (database w)),
        {| trace := Connected :: trace w;
           database := Some (create_tables (database w));
           database_up := database_up w |})
  else (Raise OperationalError, w).

(** [db.close()], every statement having been committed. *)
Definition close (db : ClinicalTrialsDB) (w : world) : world :=
  {| trace := Closed :: trace w;
     database := Some (clinical_trials db, id_seq db);
     database_up := database_up w |}.

(** [scrape_trials], the loop running for at most [fuel] pages. *)
Definition scrape_trials (fuel : nat) (condition intervention other_terms : option string)
    (max_trials : option Z) (results_only : bool) (w : world)
    : option (result nat * world) :=
  if negb (any_filter condition intervention other_terms)
  then Some (Raise ValueError, w)
  else
    match open_db w with
    | (Raise e, w) => Some (Raise e, w)
    | (Return db, w) =>
        let terms := search_terms_str condition intervention other_terms results_only in
        match scrape_loop fuel condition intervention other_terms max_trials
                results_only terms JNull 0 db w with
        | None => None
        | Some (total_stored, db, w) => Some (Return total_stored, close db w)
        end
    end.

(** [leaves k token total db w why st]: from the loop state given, the
    loop takes [k] more turns to the next page and then leaves for the
    reason [why], in the state [st]. *)
Inductive leaves (condition intervention other_terms : option string)
    (max_trials : option Z) (results_only : bool) (terms : string)
  : nat -> json -> nat -> ClinicalTrialsDB -> world ->
    ending -> nat * ClinicalTrialsDB * world -> Prop :=
  | leaves_now token total db w why st :
      page_body condition intervention other_terms max_trials results_only
        terms token total db w = (Leave why, st) ->
      leaves condition intervention other_terms max_trials results_only terms
        0 token total db w why st
  | leaves_later k token total db w token' total' db' w' why st :
      page_body condition intervention other_terms max_trials results_only
        terms token total db w = (NextPage token', (total', db', w')) ->
      leaves condition intervention other_terms max_trials results_only terms
        k token' total' db' w' why st ->
      leaves condition intervention other_terms max_trials results_only terms
        (S k) token total db w why st.

End Ingestor.


(** ** main *)

Module Cli.

(** The namespace that [parser.parse_args()] returns. *)
Record args := {
  condition : option string;
  intervention : option string;
  other_terms : option string;
  max_trials : option Z;
  results_only : bool
}.

End Cli.

(** How [main] ends: [parser.error] leaves the program with status 2, the
    summary of the run is printed with [total_stored], or an exception of
    [scrape_trials] passes through. *)
Inductive finish :=
  | SystemExit (status : Z)
  | Summary (total_stored : nat)
  | Uncaught (e : exn).

Section Main.
Context `{Engine}.
Variable network : nat -> gmap string json -> reply.
Variable now : nat -> Z.

(** [main], from the parsed arguments on; the loop of [scrape_trials] runs
    for at most [fuel] pages. *)
Definition main (fuel : nat) (a : Cli.args) (w : world) : option (finish * world) :=
  if negb (any_filter (Cli.condition a) (Cli.intervention a) (Cli.other_terms a))
  then Some (SystemExit 2, w)
  else
    match scrape_trials network now fuel (Cli.condition a) (Cli.intervention a)
            (Cli.other_terms a) (Cli.max_trials a) (Cli.results_only a) w with
    | None => None
    | Some (Return total_stored, w) => Some (Summary total_stored, w)
    | Some (Raise e, w) => Some (Uncaught e, w)
    end.

End Main.

(** ** Invariants of the table and of a run *)

Section Invariants.
Context `{Engine}.

(** A row whose generated columns are those of its [data], stored under
    its own [nct_id]. *)
Definition consistent (key : string) (r : row) : Prop :=
  nct_id r = key /\
  has_results_of (data r) = Return (has_results r) /\
  overall_status_of (data r) = Return (overall_status r) /\
  phase_of (data r) = Return (phase r).

(** [row_kept old new]: [new] is the record [old] at a later time: same
    [id], [nct_id] and [created_at], and the [search_terms] of [old], if
    any, at the head of those of [new]. *)
Definition row_kept (old new : row) : Prop :=
  id new = id old /\ nct_id new = nct_id old /\
  created_at new = created_at old /\
  forall cur, search_terms old = Some cur ->
    exists cur', search_terms new = Some cur' /\ Text.starts_with cur cur' = true.

(** [table_kept t t']: every record of [t] is kept in [t']. *)
Definition table_kept (t t' : gmap string row) : Prop :=
  forall key old, t !! key = Some old ->
    exists new, t' !! key = Some new /\ row_kept old new.

(** The table of a database on the server, empty before it is created. *)
Definition table_of (server : option (gmap string row * Z)) : gmap string row :=
  (create_tables server).1.

(** An effect that the loop of a run with the given filters can have: a
    request built from these filters with some page token, a wait of 4, a
    call of [insert_trial]. *)
Definition run_event (c i o : option string) (ro : bool) (e : event) : Prop :=
  match e with
  | Requested params => exists token, params = build_params c i o token ro
  | Slept delay => delay = 4
  | Executed _ _ => True
  | Connected | Closed => False
  end.

End Invariants.

(** ** A sample engine, registry and clock

    Concrete parameters on which the definitions can be run. *)

Module Sample.

(** A plain engine: every document is accepted; text forms for null,
    booleans and strings (other values have the empty text); the boolean
    literals of the engine's input syntax in lower case; no parameter
    other than a [str] is adapted. *)
Definition plain_out (j : json) : string :=
  match j with
  | JNull => "null"
  | JBool true => "true"
  | JBool false => "false"
  | JStr s => Text.quoted s
  | _ => ""
  end.

Definition plain_boolin (s : string) : option bool :=
  if existsb (String.eqb s) ["true"; "t"; "yes"; "y"; "on"; "1"] then Some true
  else if existsb (String.eqb s) ["false"; "f"; "no"; "n"; "off"; "0"] then Some false
  else None.

Definition engine : Engine :=
  {| jsonb_in := fun _ => true; jsonb_out := plain_out;
     boolin := plain_boolin; text_param := fun _ => None |}.

(** A study document of the registry with identifier [nct]. *)
Definition study (nct : string) (status : string) : json :=
  JObj [("protocolSection",
         JObj [("identificationModule", JObj [("nctId", JStr nct)]);
               ("statusModule", JObj [("overallStatus", JStr status)]);
               ("designModule", JObj [("phases", JArr [JStr "PHASE2"])])]);
        ("hasResults", JBool true)].

(** A study document without identifier. *)
Definition anonymous_study : json :=
  JObj [("protocolSection", JObj [("identificationModule", JObj [])])].


Definition page (studies : list json) (next_page_token : option string) : json :=
  JObj (("studies", JArr studies)
        :: match next_page_token with
           | Some t => [("nextPageToken", JStr t)]
           | None => []
           end).

(** A registry of two pages: NCT01, an anonymous study, NCT02 and NCT03
    on the first, which points to the second by the token ["p2"]; NCT04 on
    the second. It answers every request at once. *)
Definition registry_two_pages (params : gmap string json) : json :=
  match params !! "pageToken" with
  | None =>
      page [study "NCT01" "COMPLETED"; anonymous_study;
            study "NCT02" "RECRUITING"; study "NCT03" "COMPLETED"] (Some "p2")
  | Some _ => page [study "NCT04" "COMPLETED"] None
  end.

Definition two_pages (n : nat) (params : gmap string json) : reply :=
  HttpResponse 200 (Some (registry_two_pages params)).

(** A registry that answers every request with the same reply. *)
Definition always (r : reply) (n : nat) (params : gmap string json) : reply := r.

(** A registry out of reach for the first [k] requests, then answering
    with one page of one study. *)
Definition down_first (k : nat) (n : nat) (params : gmap string json) : reply :=
  if (n <? k)%nat then NoResponse Timeout
  else HttpResponse 200 (Some (page [study "NCT01" "COMPLETED"] None)).

(** A clock that ticks once per statement. *)
Definition ticking (n : nat) : Z := 1000 + Z.of_nat n.

(** The world before a first run: nothing has happened, the server is up
    and its database is empty. *)
Definition fresh : world :=
  {| trace := []; database := None; database_up := true |}.

(** The table after one upsert of NCT01 into an empty database, found by
    the filter "brain cancer" on the condition. *)
Definition annotated : ClinicalTrialsDB :=
  (insert_trial (H:=engine) (connect None) "NCT01" (study "NCT01" "COMPLETED")
     "condition:brain cancer" 1000).2.

(** The world after a run over the two pages without bound. *)
Definition after_all : world :=
  match scrape_trials (H:=engine) two_pages ticking 2
          (Some "diabetes") None None None false fresh with
  | Some (_, w) => w
  | None => fresh
  end.


(** A study document whose [phases] is a text, not a list: the engine
    cannot take the length of it. *)
Definition study_with_text_phases : json :=
  JObj [("protocolSection",
         JObj [("identificationModule", JObj [("nctId", JStr "NCT09")]);
               ("designModule", JObj [("phases", JStr "PHASE2")])])].

(** The connection after that study was refused. *)
Definition poisoned : ClinicalTrialsDB :=
  (insert_trial (H:=engine) annotated "NCT09" study_with_text_phases
     "condition:brain" 1001).2.

(** The world after a run over the two pages with the bound 2. *)
Definition bounded_run : world :=
  match scrape_trials (H:=engine) two_pages ticking 1
          (Some "diabetes") None None (Some 2) false fresh with
  | Some (_, w) => w
  | None => fresh
  end.

(** The world after a second run over the two pages, by another filter. *)
Definition second_run : world :=
  match scrape_trials (H:=engine) two_pages ticking 2
          None (Some "insulin") None None false after_all with
  | Some (_, w) => w
  | None => after_all
  end.

(** The world after a second run over the two pages, by the same filter. *)
Definition same_again : world :=
  match scrape_trials (H:=engine) two_pages ticking 2
          (Some "diabetes") None None None false after_all with
  | Some (_, w) => w
  | None => after_all
  end.

(** A registry whose every page holds one anonymous study and points to
    a next page. *)
Definition endless (n : nat) (params : gmap string json) : reply :=
  HttpResponse 200
    (Some (JObj [("studies", JArr [anonymous_study]);
                 ("nextPageToken", JStr "next")])).

End Sample.

(** * Properties *)

(** ** Text *)

Module TextFacts.
Import Text.

Lemma append_nil_l (s : string) : "" +:+ s = s.
Proof. reflexivity. Qed.

Lemma append_cons (a : ascii) (s t : string) : String a s +:+ t = String a (s +:+ t).
Proof. reflexivity. Qed.

Lemma starts_with_app (p t : string) : starts_with p (p +:+ t) = true.
Proof.
  induction p as [|a p IH]; [reflexivity|].
  rewrite append_cons. cbn [starts_with]. rewrite Ascii.eqb_refl. exact IH.
Qed.

Lemma starts_with_inv (p s : string) :
  starts_with p s = true -> exists t, s = p +:+ t.
Proof.
  revert s. induction p as [|a p IH]; intros s Hs; simpl in *.
  - exists s. reflexivity.
  - destruct s as [|b s]; [discriminate|].
    destruct (Ascii.eqb_spec a b) as [->|]; [|discriminate].
    destruct (IH s Hs) as [t ->]. exists t. reflexivity.
Qed.

Lemma position_unfold (sub s : string) :
  position sub s =
    if starts_with sub s then 1%nat
    else match s with
         | EmptyString => 0%nat
         | String _ s' => match position sub s' with
                          | O => 0%nat
                          | S k => S (S k)
                          end
         end.
Proof. destruct s; reflexivity. Qed.

(** [position] is positive exactly on the substrings. *)
Lemma position_occurs (sub s : string) :
  (0 < position sub s)%nat <-> occurs sub s.
Proof.
  split.
  - induction s as [|a s IH]; rewrite position_unfold;
      destruct (starts_with sub _) eqn:Hp.
    + intros _. apply starts_with_inv in Hp as [t Ht].
      exists "", t. exact Ht.
    + lia.
    + intros _. apply starts_with_inv in Hp as [t Ht].
      exists "", t. exact Ht.
    + destruct (position sub s) as [|k]; [lia|]. intros _.
      destruct IH as (pre & post & ->); [lia|].
      exists (String a pre), post. reflexivity.
  - intros (pre & post & ->).
    induction pre as [|a pre IH];
      rewrite ?append_nil_l, ?append_cons, position_unfold.
    + rewrite starts_with_app. lia.
    + destruct (starts_with sub _); [lia|].
      destruct (position sub (pre +:+ sub +:+ post)); lia.
Qed.

Lemma position_absent (sub s : string) :
  position sub s = 0%nat <-> ~ occurs sub s.
Proof. rewrite <- position_occurs. lia. Qed.

Lemma append_assoc (a b c : string) : (a +:+ b) +:+ c = a +:+ b +:+ c.
Proof.
  induction a as [|x a IH]; [reflexivity|]. rewrite !append_cons. now rewrite IH.
Qed.

Lemma append_empty_r (a : string) : a +:+ "" = a.
Proof.
  induction a as [|x a IH]; [reflexivity|]. rewrite append_cons. now rewrite IH.
Qed.

Lemma occurs_refl (s : string) : occurs s s.
Proof. exists "", "". now rewrite append_nil_l, append_empty_r. Qed.

(** What was appended occurs in the result. *)
Lemma occurs_appended (cur sep sub : string) : occurs sub (cur +:+ sep +:+ sub).
Proof.
  exists (cur +:+ sep), "". now rewrite append_empty_r, append_assoc.
Qed.

End TextFacts.

(** ** ClinicalTrialsDB *)

Section RepositoryFacts.
Context `{Engine}.

Lemma varchar_fits (n : nat) (s : string) :
  (String.length s <= n)%nat -> Sql.varchar n s = Return s.
Proof.
  intros Hn. unfold Sql.varchar.
  destruct (Nat.leb_spec (String.length s) n); [reflexivity|lia].
Qed.

(** The substring test of the [CASE], read on [Text.occurs]. *)
Lemma merge_search_terms_present (cur ann : string) :
  Text.occurs ann cur -> merge_search_terms (Some cur) ann = Some cur.
Proof.
  intros Hocc. apply TextFacts.position_occurs in Hocc. unfold merge_search_terms.
  destruct (Nat.ltb_spec 0 (Text.position ann cur)); [reflexivity|lia].
Qed.

Lemma merge_search_terms_absent (cur ann : string) :
  ~ Text.occurs ann cur ->
  merge_search_terms (Some cur) ann = Some (cur +:+ "; " +:+ ann).
Proof.
  intros Hocc. apply TextFacts.position_absent in Hocc. unfold merge_search_terms.
  rewrite Hocc. reflexivity.
Qed.

(** Merging the same annotation again changes nothing. *)
Lemma merge_search_terms_again (stored : option string) (ann : string) :
  forall cur, merge_search_terms stored ann = Some cur ->
              merge_search_terms (Some cur) ann = Some cur.
Proof.
  intros cur Hm. apply merge_search_terms_present.
  destruct stored as [old|]; simpl in Hm.
  - destruct (Nat.ltb_spec 0 (Text.position ann old)) as [Hpos|_];
      injection Hm as <-.
    + now apply TextFacts.position_occurs.
    + apply TextFacts.occurs_appended.
  - injection Hm as <-. apply TextFacts.occurs_refl.
Qed.

Lemma merge_search_terms_some (stored : option string) (ann : string) :
  exists cur, merge_search_terms stored ann = Some cur.
Proof.
  destruct stored as [old|]; simpl; [|eauto].
  destruct (0 <? Text.position ann old)%nat; eauto.
Qed.

(** What a proposed row is made of, when the engine accepts it. *)
Lemma proposed_row_inv db nct d terms now new :
  proposed_row db nct d terms now = Return new ->
  Sql.varchar 255 nct = Return (nct_id new) /\
  jsonb_in d = true /\
  has_results_of d = Return (has_results new) /\
  overall_status_of d = Return (overall_status new) /\
  phase_of d = Return (phase new) /\
  id new = id_seq db /\ data new = d /\ search_terms new = Some terms /\
  created_at new = now /\ last_updated_at new = now.
Proof.
  unfold proposed_row.
  destruct (Sql.varchar 255 nct) as [key|]; [|discriminate]. cbn.
  destruct (jsonb_in d); [|discriminate]. cbn.
  destruct (has_results_of d) as [hr|]; [|discriminate]. cbn.
  destruct (overall_status_of d) as [os|]; [|discriminate]. cbn.
  destruct (phase_of d) as [ph|]; [|discriminate]. cbn.
  intros [= <-]. cbn. repeat split; reflexivity.
Qed.

(** Whether a row is accepted depends on the key and the document only. *)
Lemma proposed_row_again db db' nct d terms terms' now now' new :
  proposed_row db nct d terms now = Return new ->
  proposed_row db' nct d terms' now' =
    Return {| id := id_seq db'; nct_id := nct_id new; data := d;
              has_results := has_results new;
              overall_status := overall_status new; phase := phase new;
              search_terms := Some terms';
              created_at := now'; last_updated_at := now' |}.
Proof.
  intros Hp. apply proposed_row_inv in Hp as (Hk & Hj & Hr & Ho & Hph & _).
  unfold proposed_row. rewrite Hk. cbn. rewrite Hj. cbn.
  rewrite Hr. cbn. rewrite Ho. cbn. rewrite Hph. reflexivity.
Qed.

(** A call that returns: the transaction was sound, the row was accepted,
    and the table holds the row written under its key. *)
Lemma insert_trial_returns db nct d terms now rid db' :
  insert_trial db nct d terms now = (Return rid, db') ->
  exists new,
    failed_transaction db = false /\
    proposed_row db nct d terms now = Return new /\
    let written := match clinical_trials db !! nct_id new with
                   | None => new
                   | Some old => on_conflict_update old new terms now
                   end in
    rid = id written /\
    db' = {| clinical_trials := <[nct_id new := written]> (clinical_trials db);
             id_seq := id_seq db + 1; failed_transaction := false |}.
Proof.
  unfold insert_trial. destruct (failed_transaction db); [discriminate|].
  destruct (proposed_row db nct d terms now) as [new|]; [|discriminate].
  intros [= <- <-]. exists new. auto.
Qed.


End RepositoryFacts.

(** C1, as amended. An upsert on an existing record merges the annotation
    by a substring test on the accumulated [search_terms]: an annotation
    that does not occur in the accumulated text is appended once, after the
    delimiter ["; "]; an annotation that occurs in it as a substring, be it
    only as a part of a longer annotation, leaves the text as it is; on a
    record without [search_terms] the annotation becomes the text. *)
Theorem insert_trial_merge_law `{Engine} (db : ClinicalTrialsDB) (nct : string)
    (d : json) (ann : string) (now : Z) (old : row) (rid : Z)
    (db' : ClinicalTrialsDB) :
  (String.length nct <= 255)%nat ->
  clinical_trials db !! nct = Some old ->
  insert_trial db nct d ann now = (Return rid, db') ->
  exists new,
    clinical_trials db' !! nct = Some new /\
    match search_terms old with
    | Some cur =>
        (~ Text.occurs ann cur -> search_terms new = Some (cur +:+ "; " +:+ ann)) /\
        (Text.occurs ann cur -> search_terms new = Some cur)
    | None => search_terms new = Some ann
    end.
Proof.
  intros Hlen Hold Hins.
  apply insert_trial_returns in Hins as (new & _ & Hp & _ & ->).
  apply proposed_row_inv in Hp as (Hk & _).
  rewrite (varchar_fits 255 nct Hlen) in Hk. injection Hk as <-.
  rewrite Hold. eexists. split; [apply lookup_insert_eq|]. cbn.
  destruct (search_terms old) as [cur|]; [|reflexivity].
  split; intros Hocc.
  - now apply merge_search_terms_absent.
  - now apply merge_search_terms_present.
Qed.

Lemma insert_trial_merge_law_witness :
  exists new,
    clinical_trials
      (insert_trial (H:=Sample.engine) Sample.annotated "NCT01"
         (Sample.study "NCT01" "COMPLETED") "condition:diabetes" 1001).2
      !! "NCT01" = Some new /\
    ((~ Text.occurs "condition:diabetes" "condition:brain cancer" ->
      search_terms new = Some ("condition:brain cancer" +:+ "; " +:+ "condition:diabetes")) /\
     (Text.occurs "condition:diabetes" "condition:brain cancer" ->
      search_terms new = Some "condition:brain cancer")).
Proof.
  refine (insert_trial_merge_law (H:=Sample.engine) Sample.annotated "NCT01"
            (Sample.study "NCT01" "COMPLETED") "condition:diabetes" 1001
            {| id := 1; nct_id := "NCT01"; data := Sample.study "NCT01" "COMPLETED";
               has_results := Some true; overall_status := Some "COMPLETED";
               phase := Some (Text.quoted "PHASE2"); search_terms := Some "condition:brain cancer";
               created_at := 1000; last_updated_at := 1000 |}
            1 _ _ _ _).
  - vm_compute. lia.
  - vm_compute. reflexivity.
  - vm_compute. reflexivity.
Defined.

(** C1, as stated, fails: the record was found under "condition:brain
    cancer"; the new annotation "condition:brain" is a different one, and
    the upsert does not append it. *)
Lemma distinct_annotation_not_appended :
  "condition:brain" <> "condition:brain cancer" /\
  search_terms <$> clinical_trials Sample.annotated !! "NCT01"
    = Some (Some "condition:brain cancer") /\
  search_terms <$>
    clinical_trials
      (insert_trial (H:=Sample.engine) Sample.annotated "NCT01"
         (Sample.study "NCT01" "COMPLETED") "condition:brain" 1001).2 !! "NCT01"
    = Some (Some "condition:brain cancer") /\
  search_terms <$>
    clinical_trials
      (insert_trial (H:=Sample.engine) Sample.annotated "NCT01"
         (Sample.study "NCT01" "COMPLETED") "condition:brain" 1001).2 !! "NCT01"
    <> Some (Some "condition:brain cancer; condition:brain").
Proof.
  split; [discriminate|]. split; [vm_compute; reflexivity|].
  split; [vm_compute; reflexivity|]. vm_compute. discriminate.
Qed.

(** A call that returned, made again with the same arguments at a later
    time: the same record is returned, with the fields the first call
    left, but for [last_updated_at]; no other record changes. *)
Lemma insert_trial_twice `{Engine} (db : ClinicalTrialsDB) (nct : string)
    (d : json) (ann : string) (t1 t2 : Z) (rid : Z) (db1 : ClinicalTrialsDB) :
  insert_trial db nct d ann t1 = (Return rid, db1) ->
  t1 < t2 ->
  exists key r1 r2 db2,
    Sql.varchar 255 nct = Return key /\
    insert_trial db1 nct d ann t2 = (Return rid, db2) /\
    clinical_trials db1 !! key = Some r1 /\
    clinical_trials db2 !! key = Some r2 /\
    has_results r2 = has_results r1 /\
    overall_status r2 = overall_status r1 /\
    phase r2 = phase r1 /\
    search_terms r2 = search_terms r1 /\
    data r2 = data r1 /\ id r2 = id r1 /\ created_at r2 = created_at r1 /\
    last_updated_at r1 < last_updated_at r2 /\
    (forall k, k <> key -> clinical_trials db2 !! k = clinical_trials db1 !! k).
Proof.
  intros Hins Ht.
  apply insert_trial_returns in Hins as (new & _ & Hp & Hrid & ->).
  cbn zeta in Hrid.
  pose proof (proposed_row_again db
    {| clinical_trials :=
         <[nct_id new := match clinical_trials db !! nct_id new with
                         | Some old => on_conflict_update old new ann t1
                         | None => new
                         end]> (clinical_trials db);
       id_seq := id_seq db + 1; failed_transaction := false |}
    nct d ann ann t1 t2 new Hp) as Hp2.
  apply proposed_row_inv in Hp
    as (Hk & _ & _ & _ & _ & _ & Hd & Hst & Hc & Hu).
  set (w1 := match clinical_trials db !! nct_id new with
             | Some old => on_conflict_update old new ann t1
             | None => new
             end) in *.
  assert (Hterms : merge_search_terms (search_terms w1) ann = search_terms w1).
  { subst w1. destruct (clinical_trials db !! nct_id new) as [old|]; cbn.
    - destruct (merge_search_terms_some (search_terms old) ann) as [cur Hcur].
      rewrite Hcur. now apply merge_search_terms_again with (search_terms old).
    - rewrite Hst. apply merge_search_terms_present, TextFacts.occurs_refl. }
  assert (Hup : last_updated_at w1 = t1).
  { subst w1. destruct (clinical_trials db !! nct_id new); [reflexivity|exact Hu]. }
  assert (Hres : has_results w1 = has_results new /\
                 overall_status w1 = overall_status new /\
                 phase w1 = phase new /\ data w1 = d).
  { subst w1. destruct (clinical_trials db !! nct_id new); cbn; auto. }
  destruct Hres as (Hr1 & Hr2 & Hr3 & Hr4).
  exists (nct_id new), w1. eexists. eexists.
  split; [exact Hk|]. split.
  { unfold insert_trial. cbn [failed_transaction]. rewrite Hp2.
    cbn [nct_id clinical_trials id_seq]. rewrite lookup_insert_eq.
    cbn [on_conflict_update id]. rewrite <- Hrid. reflexivity. }
  cbn [clinical_trials].
  split; [apply lookup_insert_eq|]. split; [apply lookup_insert_eq|].
  cbn. rewrite Hterms, Hup. repeat split; auto.
  intros k Hne. now rewrite !lookup_insert_ne.
Qed.

(** C2. Two calls of [insert_trial] with the same arguments, the second at
    a later time of the server clock. Every record has after the second
    call the [has_results], [overall_status], [phase] and [search_terms]
    that it had after the first. When the first call returned, the second
    returns the same record, whose [data], [id] and [created_at] are as
    they were and whose [last_updated_at] has strictly advanced. When the
    first call raised, the second raises too and the table is as it was. *)
Theorem insert_trial_idempotent `{Engine} (db : ClinicalTrialsDB) (nct : string)
    (d : json) (ann : string) (t1 t2 : Z)
    (r1 r2 : result Z) (db1 db2 : ClinicalTrialsDB) :
  insert_trial db nct d ann t1 = (r1, db1) ->
  insert_trial db1 nct d ann t2 = (r2, db2) ->
  t1 < t2 ->
  (forall key,
      kept_fields <$> clinical_trials db2 !! key
        = kept_fields <$> clinical_trials db1 !! key) /\
  (forall rid,
      r1 = Return rid ->
      r2 = Return rid /\
      exists key row1 row2,
        Sql.varchar 255 nct = Return key /\
        clinical_trials db1 !! key = Some row1 /\
        clinical_trials db2 !! key = Some row2 /\
        data row2 = data row1 /\ id row2 = id row1 /\
        created_at row2 = created_at row1 /\
        last_updated_at row1 < last_updated_at row2) /\
  (forall e,
      r1 = Raise e ->
      (exists e', r2 = Raise e') /\ clinical_trials db2 = clinical_trials db1).
Proof.
  intros H1 H2 Ht. destruct r1 as [rid|e].
  - destruct (insert_trial_twice db nct d ann t1 t2 rid db1 H1 Ht)
      as (key & row1 & row2 & db2' & Hk & H2' & Hl1 & Hl2 & Hhr & Hos & Hph
          & Hst & Hd & Hid & Hc & Hu & Hothers).
    rewrite H2' in H2. injection H2 as <- <-.
    split; [|split].
    + intros key'. destruct (decide (key' = key)) as [->|Hne].
      * rewrite Hl1, Hl2. unfold kept_fields. cbn. congruence.
      * now rewrite Hothers.
    + intros rid' [= <-]. split; [reflexivity|].
      exists key, row1, row2. auto 10.
    + discriminate.
  - assert (Hdb2 : (exists e', r2 = Raise e') /\
                   clinical_trials db2 = clinical_trials db1).
    { unfold insert_trial in H1, H2.
      destruct (failed_transaction db) eqn:Hf.
      - injection H1 as _ <-. rewrite Hf in H2. injection H2 as <- <-. eauto.
      - destruct (proposed_row db nct d ann t1); [discriminate|].
        injection H1 as _ <-. cbn in H2. injection H2 as <- <-. eauto. }
    destruct Hdb2 as [Hr2 Htbl].
    split; [|split].
    + intros key. now rewrite Htbl.
    + discriminate.
    + auto.
Qed.

Lemma insert_trial_idempotent_witness :
  (insert_trial (H:=Sample.engine) Sample.annotated "NCT01"
     (Sample.study "NCT01" "COMPLETED") "condition:brain cancer" 2000).1
    = Return 1 /\
  exists key row1 row2,
    Sql.varchar 255 "NCT01" = Return key /\
    clinical_trials Sample.annotated !! key = Some row1 /\
    clinical_trials
      (insert_trial (H:=Sample.engine) Sample.annotated "NCT01"
         (Sample.study "NCT01" "COMPLETED") "condition:brain cancer" 2000).2
      !! key = Some row2 /\
    data row2 = data row1 /\ id row2 = id row1 /\
    created_at row2 = created_at row1 /\
    last_updated_at row1 < last_updated_at row2.
Proof.
  refine (proj1 (proj2 (insert_trial_idempotent (H:=Sample.engine)
                          (connect None) "NCT01" (Sample.study "NCT01" "COMPLETED")
                          "condition:brain cancer" 1000 2000 (Return 1) _
                          Sample.annotated _ _ _ _))
            1 eq_refl).
  - vm_compute. reflexivity.
  - apply surjective_pairing.
  - lia.
Defined.

(** ** The retry decorator and the client *)

Section ClientFacts.
Variable network : nat -> gmap string json -> reply.

(** The three attempts of the decorated function, written out. *)
Lemma retry_three {A} (wait : nat -> Z) (f : world -> result A * world) (w : world) :
  Tenacity.retry (Tenacity.stop_after_attempt 3) wait f 3 1 w =
    match f w with
    | (Return a, w1) => (Return a, w1)
    | (Raise _, w1) =>
        match f (record (Slept (wait 1%nat)) w1) with
        | (Return a, w2) => (Return a, w2)
        | (Raise _, w2) =>
            match f (record (Slept (wait 2%nat)) w2) with
            | (Return a, w3) => (Return a, w3)
            | (Raise e, w3) => (Raise (RetryError e), w3)
            end
        end
    end.
Proof.
  cbn. destruct (f w) as [[a|e1] w1]; [reflexivity|].
  destruct (f _) as [[a|e2] w2]; [reflexivity|].
  destruct (f _) as [[a|e3] w3]; reflexivity.
Qed.

(** The waits of [wait_exponential(multiplier=1, min=4, max=10)]. *)
Lemma wait_exponential_values (attempt_number : nat) :
  Tenacity.wait_exponential 1 4 10 attempt_number =
    if (attempt_number <=? 3)%nat then 4
    else if (attempt_number =? 4)%nat then 8 else 10.
Proof.
  unfold Tenacity.wait_exponential.
  destruct attempt_number as [|[|[|[|[|k]]]]]; try reflexivity.
  change (S (S (S (S (S k)))) <=? 3)%nat with false.
  change (S (S (S (S (S k)))) =? 4)%nat with false. cbv iota.
  assert (2 ^ 4 <= 2 ^ (Z.of_nat (S (S (S (S (S k))))) - 1))
    by (apply Z.pow_le_mono_r; lia).
  change (2 ^ 4) with 16 in *. lia.
Qed.

(** The decorated call in terms of the replies to its three requests. *)
Lemma search_studies_unfold c i o tok ro w :
  let params := build_params c i o tok ro in
  let n := List.length (requests (trace w)) in
  exists w1 w2 w3,
    after_attempts 1 params w w1 /\ after_attempts 2 params w w2 /\
    after_attempts 3 params w w3 /\
    search_studies network c i o tok ro w =
      match read_reply (network n params) with
      | Return page => (Return page, w1)
      | Raise _ =>
          match read_reply (network (n + 1)%nat params) with
          | Return page => (Return page, w2)
          | Raise _ =>
              match read_reply (network (n + 2)%nat params) with
              | Return page => (Return page, w3)
              | Raise e => (Raise (RetryError e), w3)
              end
          end
      end.
Proof.
  intros params n. unfold search_studies. rewrite retry_three.
  unfold search_studies_attempt. fold params.
  cbn [requests trace record]. rewrite !length_app. cbn [List.length]. fold n.
  replace (n + 1 + 1)%nat with (n + 2)%nat by lia.
  rewrite !wait_exponential_values. cbn [Nat.leb].
  eexists. eexists. eexists.
  split; [|split; [|split]]; cycle 3.
  - destruct (read_reply (network n params)); [reflexivity|].
    destruct (read_reply (network (n + 1)%nat params)); [reflexivity|].
    destruct (read_reply (network (n + 2)%nat params)); reflexivity.
  - repeat split; cbn; rewrite ?app_nil_r; reflexivity.
  - repeat split; cbn; rewrite <- ?app_assoc; reflexivity.
  - repeat split; cbn; rewrite <- ?app_assoc; reflexivity.
Qed.

End ClientFacts.

Lemma read_reply_error_status (status : Z) (body : option json) :
  400 <= status < 600 ->
  read_reply (HttpResponse status body) = Raise (RequestException (HTTPError status)).
Proof.
  intros [Hlo Hhi]. unfold read_reply.
  destruct (Z.leb_spec 400 status); [|lia].
  destruct (Z.ltb_spec status 600); [reflexivity|lia].
Qed.

(** C5, as amended. A response with an error status is retried like any
    other failure of an attempt: the call does not surface the [HTTPError]
    of its first attempt, it waits 4 time units and sends the request again;
    when the three attempts all meet an error status, the call raises
    [RetryError] around the [HTTPError] of the third, after three requests
    and two waits of 4. *)
Theorem search_studies_retries_error_status
    (network : nat -> gmap string json -> reply)
    (c i o : option string) (tok : json) (ro : bool) (w : world)
    (status : Z) (body : option json) :
  let params := build_params c i o tok ro in
  let n := List.length (requests (trace w)) in
  network n params = HttpResponse status body ->
  400 <= status < 600 ->
  (exists r w' k,
      search_studies network c i o tok ro w = (r, w') /\
      (2 <= k <= 3)%nat /\ after_attempts k params w w' /\
      r <> Raise (RequestException (HTTPError status))) /\
  (forall s2 b2 s3 b3,
      network (n + 1)%nat params = HttpResponse s2 b2 -> 400 <= s2 < 600 ->
      network (n + 2)%nat params = HttpResponse s3 b3 -> 400 <= s3 < 600 ->
      exists w',
        search_studies network c i o tok ro w
          = (Raise (RetryError (RequestException (HTTPError s3))), w') /\
        after_attempts 3 params w w').
Proof.
  intros params n H1 Hs1.
  destruct (search_studies_unfold network c i o tok ro w)
    as (w1 & w2 & w3 & _ & Hw2 & Hw3 & Heq).
  fold params n in Heq. rewrite H1, (read_reply_error_status _ _ Hs1) in Heq.
  split.
  - destruct (read_reply (network (n + 1)%nat params)) as [page|e2].
    + exists (Return page), w2, 2%nat.
      split; [exact Heq|split; [lia|split; [assumption|discriminate]]].
    + destruct (read_reply (network (n + 2)%nat params)) as [page|e3].
      * exists (Return page), w3, 3%nat.
        split; [exact Heq|split; [lia|split; [assumption|discriminate]]].
      * exists (Raise (RetryError e3)), w3, 3%nat.
        split; [exact Heq|split; [lia|split; [assumption|discriminate]]].
  - intros s2 b2 s3 b3 H2 Hs2 H3 Hs3.
    rewrite H2, (read_reply_error_status _ _ Hs2),
      H3, (read_reply_error_status _ _ Hs3) in Heq.
    exists w3. auto.
Qed.

Lemma search_studies_retries_error_status_witness :
  exists w',
    search_studies (Sample.always (HttpResponse 404 None))
      (Some "diabetes") None None JNull false Sample.fresh
      = (Raise (RetryError (RequestException (HTTPError 404))), w') /\
    after_attempts 3 (build_params (Some "diabetes") None None JNull false)
      Sample.fresh w'.
Proof.
  refine (proj2 (search_studies_retries_error_status
                   (Sample.always (HttpResponse 404 None))
                   (Some "diabetes") None None JNull false Sample.fresh
                   404 None _ _) 404 None 404 None _ _ _ _);
    first [reflexivity | lia].
Defined.

(** C5, as stated, fails: the registry rejects the request with status 400
    each time; the call sends it three times, with two waits between, and
    only then raises. *)
Lemma error_status_is_retried :
  (search_studies (Sample.always (HttpResponse 400 None))
     (Some "diabetes") None None JNull false Sample.fresh).1
    = Raise (RetryError (RequestException (HTTPError 400))) /\
  List.length
    (requests (trace (search_studies (Sample.always (HttpResponse 400 None))
                        (Some "diabetes") None None JNull false Sample.fresh).2))
    = 3%nat /\
  sleeps (trace (search_studies (Sample.always (HttpResponse 400 None))
                   (Some "diabetes") None None JNull false Sample.fresh).2)
    = [4; 4].
Proof. repeat split; vm_compute; reflexivity. Qed.

(** C6, as amended. A call whose first two attempts fail and whose third
    succeeds returns the page of the third, after three requests; a call
    whose three attempts fail raises [RetryError] around the failure of the
    third and returns no page; no call sends more than three requests. The
    wait before each of the two retries is 4 time units: the exponential
    term [2 ** (n - 1)] after attempt [n] is raised to the minimum 4 and
    capped at 10, so that the waits of the policy are 4, 4, 4, 8, 10, 10,
    and so on, of which three attempts see the first two. *)
Theorem search_studies_retry (network : nat -> gmap string json -> reply)
    (c i o : option string) (tok : json) (ro : bool) (w : world) :
  let params := build_params c i o tok ro in
  let n := List.length (requests (trace w)) in
  let attempt k := read_reply (network (n + k)%nat params) in
  (forall e1 e2 page,
      attempt 0%nat = Raise e1 -> attempt 1%nat = Raise e2 ->
      attempt 2%nat = Return page ->
      exists w',
        search_studies network c i o tok ro w = (Return page, w') /\
        after_attempts 3 params w w') /\
  (forall e1 e2 e3,
      attempt 0%nat = Raise e1 -> attempt 1%nat = Raise e2 ->
      attempt 2%nat = Raise e3 ->
      exists w',
        search_studies network c i o tok ro w = (Raise (RetryError e3), w') /\
        after_attempts 3 params w w') /\
  (forall r w',
      search_studies network c i o tok ro w = (r, w') ->
      exists k, (1 <= k <= 3)%nat /\ after_attempts k params w w') /\
  (forall attempt_number : nat,
      Tenacity.wait_exponential 1 4 10 attempt_number =
        if (attempt_number <=? 3)%nat then 4
        else if (attempt_number =? 4)%nat then 8 else 10).
Proof.
  intros params n attempt. subst attempt. cbv beta.
  destruct (search_studies_unfold network c i o tok ro w)
    as (w1 & w2 & w3 & Hw1 & Hw2 & Hw3 & Heq).
  fold params n in Heq. rewrite Nat.add_0_r.
  split; [|split; [|split]].
  - intros e1 e2 page H1 H2 H3. rewrite H1, H2, H3 in Heq. eauto.
  - intros e1 e2 e3 H1 H2 H3. rewrite H1, H2, H3 in Heq. eauto.
  - intros r w' Hr. rewrite Heq in Hr.
    destruct (read_reply (network n params)).
    { injection Hr as <- <-. exists 1%nat. split; [lia|assumption]. }
    destruct (read_reply (network (n + 1)%nat params)).
    { injection Hr as <- <-. exists 2%nat. split; [lia|assumption]. }
    exists 3%nat. split; [lia|].
    destruct (read_reply (network (n + 2)%nat params));
      injection Hr as <- <-; assumption.
  - apply wait_exponential_values.
Qed.

Lemma search_studies_retry_witness :
  exists w',
    search_studies (Sample.down_first 2)
      (Some "diabetes") None None JNull false Sample.fresh
      = (Return (Sample.page [Sample.study "NCT01" "COMPLETED"] None), w') /\
    after_attempts 3 (build_params (Some "diabetes") None None JNull false)
      Sample.fresh w'.
Proof.
  refine (proj1 (search_studies_retry (Sample.down_first 2)
                   (Some "diabetes") None None JNull false Sample.fresh)
            (RequestException Timeout) (RequestException Timeout) _ _ _ _);
    reflexivity.
Defined.

(** C6, as stated, fails: after two timeouts the third attempt succeeds,
    and the two waits were 4 and 4, not 4 and its double. *)
Lemma backoff_does_not_double :
  (search_studies (Sample.down_first 2)
     (Some "diabetes") None None JNull false Sample.fresh).1
    = Return (Sample.page [Sample.study "NCT01" "COMPLETED"] None) /\
  sleeps (trace (search_studies (Sample.down_first 2)
                   (Some "diabetes") None None JNull false Sample.fresh).2)
    = [4; 4] /\
  sleeps (trace (search_studies (Sample.down_first 2)
                   (Some "diabetes") None None JNull false Sample.fresh).2)
    <> [4; 8].
Proof.
  split; [vm_compute; reflexivity|]. split; [vm_compute; reflexivity|].
  vm_compute. discriminate.
Qed.


(** ** scrape_trials *)

Lemma has_key_assoc k fields v :
  assoc k fields = Some v ->
  Py.has_key k fields = true /\ Py.truthy (JObj fields) = true.
Proof.
  intros Hv. unfold Py.has_key. rewrite Hv. split; [reflexivity|].
  destruct fields; [discriminate|reflexivity].
Qed.

Lemma stored_app (ext t : list event) : stored (ext ++ t) = (stored t ++ stored ext)%list.
Proof.
  induction ext as [|e ext IH]; cbn [app stored]; [now rewrite app_nil_r|].
  destruct e as [| | |key [|]|]; rewrite ?IH, ?app_assoc; reflexivity.
Qed.

Lemma requests_app (ext t : list event) :
  requests (ext ++ t) = (requests t ++ requests ext)%list.
Proof.
  induction ext as [|e ext IH]; cbn [app requests]; [now rewrite app_nil_r|].
  destruct e; rewrite ?IH, ?app_assoc; reflexivity.
Qed.

Section IngestorFacts.
Context `{Engine}.
Variable network : nat -> gmap string json -> reply.
Variable now : nat -> Z.

Lemma bound_reached_none (total : nat) : bound_reached None total = false.
Proof. reflexivity. Qed.

Lemma bound_reached_pos (k total : nat) :
  (0 < k)%nat -> bound_reached (Some (Z.of_nat k)) total = (k <=? total)%nat.
Proof.
  intros Hk. unfold bound_reached.
  destruct (Z.eqb_spec (Z.of_nat k) 0); [lia|]. cbn [negb andb].
  destruct (Z.leb_spec (Z.of_nat k) (Z.of_nat total)), (Nat.leb_spec k total);
    [reflexivity|lia|lia|reflexivity].
Qed.

(** One study, in cases: nothing happens unless the study is submitted
    and the driver adapts its identifier; then [insert_trial] is called,
    and the total counts the call if it returns. *)
Lemma process_study_cases terms max_trials study total db w :
  process_study now terms max_trials study total db w =
    match submitted study with
    | None => (NextStudy, (total, db, w))
    | Some nct =>
        match key_of nct with
        | None => (NextStudy, (total, db, w))
        | Some k =>
            match insert_trial db k study terms (now (statements (trace w))) with
            | (Return _, db1) =>
                (if bound_reached max_trials (S total) then ReturnTotal else NextStudy,
                 (S total, db1, record (Executed k true) w))
            | (Raise _, db1) =>
                (NextStudy, (total, db1, record (Executed k false) w))
            end
        end
    end.
Proof.
  destruct study as [| | | | | |fields]; try reflexivity.
  unfold process_study, study_body, submitted.
  destruct (identify (JObj fields)) as [[status_module nct]|e]; [|reflexivity].
  destruct (Py.truthy nct); [|reflexivity]. cbn [negb Py.get mbind result_bind].
  destruct (Py.get status_module "overallStatus" (JStr "UNKNOWN")); [|reflexivity].
  unfold call_insert_trial. destruct (key_of nct) as [k|]; [|reflexivity].
  destruct (insert_trial db k _ terms _) as [[rid|e] db1]; [|reflexivity].
  destruct (bound_reached max_trials (S total)); reflexivity.
Qed.


Lemma grows_refl w : grows w w [].
Proof. repeat split. Qed.

Lemma grows_record e w : grows w (record e w) [e].
Proof. repeat split. Qed.

Lemma grows_trans w w1 w2 e1 e2 :
  grows w w1 e1 -> grows w1 w2 e2 -> grows w w2 (e2 ++ e1).
Proof.
  intros (Ht1 & Hd1 & Hu1) (Ht2 & Hd2 & Hu2).
  unfold grows. split; [|split; congruence].
  rewrite Ht2, Ht1. apply app_assoc.
Qed.

(** A search adds requests and waits to the trace, and nothing else. *)
Lemma search_studies_grows c i o tok ro w r w' :
  search_studies network c i o tok ro w = (r, w') ->
  exists ext, grows w w' ext /\ stored ext = [].
Proof.
  unfold search_studies. rewrite retry_three. unfold search_studies_attempt.
  set (params := build_params c i o tok ro).
  destruct (read_reply _).
  { intros [= <- <-]. exists [Requested params]. repeat split. }
  destruct (read_reply _).
  { intros [= <- <-]. eexists [Requested params; Slept _; Requested params].
    repeat split. }
  destruct (read_reply _); intros [= <- <-];
    eexists [Requested params; Slept _; Requested params; Slept _; Requested params];
    repeat split.
Qed.

(** One study adds at most one call of [insert_trial] to the trace; the
    total counts the calls that were committed; [return total_stored] is
    taken right after a committed call, on the bound. *)
Lemma process_study_grows terms max_trials study total db w sig total' db' w' :
  process_study now terms max_trials study total db w = (sig, (total', db', w')) ->
  exists ext,
    grows w w' ext /\ total' = (total + List.length (stored ext))%nat /\
    requests ext = [] /\
    (sig = ReturnTotal ->
       bound_reached max_trials total' = true /\
       exists key, ext = [Executed key true]).
Proof.
  rewrite process_study_cases.
  destruct (submitted study) as [nct|].
  2:{ intros [= <- <- <- <-]. exists []. repeat split; try (cbn; lia); discriminate. }
  destruct (key_of nct) as [k|].
  2:{ intros [= <- <- <- <-]. exists []. repeat split; try (cbn; lia); discriminate. }
  destruct (insert_trial db k study terms _) as [[rid|e] db1].
  - intros [= <- <- <- <-]. exists [Executed k true].
    split; [apply grows_record|]. split; [cbn; lia|]. split; [reflexivity|].
    destruct (bound_reached max_trials (S total)); [|discriminate].
    intros _. split; [reflexivity|]. now exists k.
  - intros [= <- <- <- <-]. exists [Executed k false].
    split; [apply grows_record|]. split; [cbn; lia|]. split; [reflexivity|].
    discriminate.
Qed.

Lemma process_studies_grows terms max_trials studies total db w sig total' db' w' :
  process_studies now terms max_trials studies total db w = (sig, (total', db', w')) ->
  exists ext,
    grows w w' ext /\ total' = (total + List.length (stored ext))%nat /\
    requests ext = [] /\
    (sig = ReturnTotal ->
       bound_reached max_trials total' = true /\
       exists key ext', ext = Executed key true :: ext').
Proof.
  revert total db w. induction studies as [|study rest IH]; intros total db w.
  - intros [= <- <- <- <-]. exists [].
    split; [apply grows_refl|]. split; [cbn; lia|]. split; [reflexivity|].
    discriminate.
  - cbn [process_studies].
    destruct (process_study now terms max_trials study total db w)
      as [sig1 [[total1 db1] w1]] eqn:Hstudy.
    apply process_study_grows in Hstudy as (e1 & Hg1 & Ht1 & Hr1 & Hsig1).
    destruct sig1.
    + intros Hrest. apply IH in Hrest as (e2 & Hg2 & Ht2 & Hr2 & Hsig2).
      exists (e2 ++ e1)%list. split; [eapply grows_trans; eassumption|].
      split; [rewrite stored_app, length_app; lia|].
      split; [rewrite requests_app, Hr1, Hr2; reflexivity|].
      intros Hs. destruct (Hsig2 Hs) as (Hb & key & ext' & ->).
      split; [exact Hb|]. now exists key, (ext' ++ e1)%list.
    + intros [= <- <- <- <-]. exists e1.
      split; [exact Hg1|]. split; [exact Ht1|]. split; [exact Hr1|].
      intros _. destruct Hsig1 as (Hb & key & ->); [reflexivity|].
      split; [exact Hb|]. now exists key, [].
Qed.

(** One turn of the loop. *)
Lemma page_body_grows c i o max_trials ro terms tok total db w st total' db' w' :
  page_body network now c i o max_trials ro terms tok total db w
    = (st, (total', db', w')) ->
  exists ext,
    grows w w' ext /\ total' = (total + List.length (stored ext))%nat /\
    (st = Leave BoundReached ->
       bound_reached max_trials total' = true /\
       exists key ext', ext = Executed key true :: ext').
Proof.
  unfold page_body.
  destruct (search_studies network c i o tok ro w) as [r w1] eqn:Hsearch.
  apply search_studies_grows in Hsearch as (e1 & Hg1 & Hs1).
  assert (Hstay : forall why, why <> BoundReached ->
            (Leave why, (total, db, w1)) = (st, (total', db', w')) ->
            exists ext,
              grows w w' ext /\ total' = (total + List.length (stored ext))%nat /\
              (st = Leave BoundReached ->
                 bound_reached max_trials total' = true /\
                 exists key ext', ext = Executed key true :: ext')).
  { intros why Hwhy [= <- <- <- <-]. exists e1. split; [exact Hg1|].
    split; [rewrite Hs1; cbn; lia|]. intros [= ->]. contradiction. }
  destruct r as [response|e]; [|apply Hstay; discriminate].
  destruct response as [| | | | | |fields]; try (apply Hstay; discriminate).
  destruct (negb _ || negb _); [apply Hstay; discriminate|].
  destruct (negb (Py.truthy _)); [apply Hstay; discriminate|].
  destruct (iterate _) as [items|e]; [|apply Hstay; discriminate].
  destruct (process_studies now terms max_trials items total db w1)
    as [sig [[total2 db2] w2]] eqn:Hitems.
  apply process_studies_grows in Hitems as (e2 & Hg2 & Ht2 & _ & Hsig2).
  assert (Hgo : grows w w2 (e2 ++ e1) /\
                total2 = (total + List.length (stored (e2 ++ e1)))%nat).
  { split; [eapply grows_trans; eassumption|].
    rewrite stored_app, Hs1. cbn. lia. }
  destruct Hgo as [Hg Ht]. destruct sig.
  - destruct (negb (Py.truthy _)); intros [= <- <- <- <-];
      exists (e2 ++ e1)%list; (split; [exact Hg|]); (split; [exact Ht|]);
      discriminate.
  - intros [= <- <- <- <-]. exists (e2 ++ e1)%list.
    split; [exact Hg|]. split; [exact Ht|]. intros _.
    destruct Hsig2 as (Hb & key & ext' & ->); [reflexivity|].
    split; [exact Hb|]. now exists key, (ext' ++ e1)%list.
Qed.

End IngestorFacts.

Section LoopFacts.
Context `{Engine}.
Variable network : nat -> gmap string json -> reply.
Variable now : nat -> Z.

Lemma scrape_loop_unfold fuel c i o max_trials ro terms tok total db w :
  scrape_loop network now (S fuel) c i o max_trials ro terms tok total db w =
    match page_body network now c i o max_trials ro terms tok total db w with
    | (Leave _, st) => Some st
    | (NextPage tok', (total', db', w')) =>
        scrape_loop network now fuel c i o max_trials ro terms tok' total' db' w'
    end.
Proof. reflexivity. Qed.

(** The loop adds to the trace, and its total counts the committed calls
    it added. *)
Lemma scrape_loop_grows fuel c i o max_trials ro terms tok total db w total' db' w' :
  scrape_loop network now fuel c i o max_trials ro terms tok total db w
    = Some (total', db', w') ->
  exists ext, grows w w' ext /\ total' = (total + List.length (stored ext))%nat.
Proof.
  revert tok total db w. induction fuel as [|fuel IH]; intros tok total db w.
  { discriminate. }
  rewrite scrape_loop_unfold.
  destruct (page_body network now c i o max_trials ro terms tok total db w)
    as [st [[total1 db1] w1]] eqn:Hpage.
  apply page_body_grows in Hpage as (e1 & Hg1 & Ht1 & _).
  destruct st as [why|tok'].
  - intros [= <- <- <-]. eauto.
  - intros Hrest. apply IH in Hrest as (e2 & Hg2 & Ht2).
    exists (e2 ++ e1)%list. split; [eapply grows_trans; eassumption|].
    rewrite stored_app, length_app. lia.
Qed.

(** A loop that leaves after [k] more pages returns with any fuel above
    [k]. *)
Lemma scrape_loop_leaves c i o max_trials ro terms k tok total db w why st :
  leaves network now c i o max_trials ro terms k tok total db w why st ->
  forall fuel, (k < fuel)%nat ->
    scrape_loop network now fuel c i o max_trials ro terms tok total db w = Some st.
Proof.
  induction 1 as [tok total db w why st Hpage
                 |k tok total db w tok' total' db' w' why st Hpage _ IH];
    intros [|fuel] Hfuel; try lia; rewrite scrape_loop_unfold, Hpage.
  - reflexivity.
  - apply IH. lia.
Qed.

(** A loop that returns has left after fewer pages than its fuel. *)
Lemma scrape_loop_returns fuel c i o max_trials ro terms tok total db w st :
  scrape_loop network now fuel c i o max_trials ro terms tok total db w = Some st ->
  exists k why,
    (k < fuel)%nat /\
    leaves network now c i o max_trials ro terms k tok total db w why st.
Proof.
  revert tok total db w. induction fuel as [|fuel IH]; intros tok total db w.
  { discriminate. }
  rewrite scrape_loop_unfold.
  destruct (page_body network now c i o max_trials ro terms tok total db w)
    as [[why|tok'] [[total1 db1] w1]] eqn:Hpage.
  - intros [= <-]. exists 0%nat, why. split; [lia|]. now apply leaves_now.
  - intros Hrest. apply IH in Hrest as (k & why & Hk & Hl).
    exists (S k), why. split; [lia|]. eapply leaves_later; eassumption.
Qed.

(** The endings of a turn that come before any study is handled: the
    search raised; the response is an object without [studies]; its
    [studies] is an empty list. The total is the one the turn started
    with. *)
Lemma page_body_leaves_early c i o max_trials ro terms tok total db w :
  (forall e w1,
      search_studies network c i o tok ro w = (Raise e, w1) ->
      page_body network now c i o max_trials ro terms tok total db w
        = (Leave (Caught e), (total, db, w1))) /\
  (forall fields w1,
      search_studies network c i o tok ro w = (Return (JObj fields), w1) ->
      assoc "studies" fields = None ->
      page_body network now c i o max_trials ro terms tok total db w
        = (Leave InvalidResponse, (total, db, w1))) /\
  (forall fields w1,
      search_studies network c i o tok ro w = (Return (JObj fields), w1) ->
      assoc "studies" fields = Some (JArr []) ->
      page_body network now c i o max_trials ro terms tok total db w
        = (Leave NoStudies, (total, db, w1))).
Proof.
  unfold page_body. split; [|split].
  - intros e w1 ->. reflexivity.
  - intros fields w1 -> Hnone. unfold Py.has_key. rewrite Hnone. cbn [negb].
    now rewrite orb_true_r.
  - intros fields w1 -> Hsome.
    destruct (has_key_assoc _ _ _ Hsome) as [-> ->]. now rewrite Hsome.
Qed.

Lemma open_db_returns w db0 w0 :
  open_db w = (Return db0, w0) ->
  database_up w = true /\ db0 = connect (database w) /\
  trace w0 = Connected :: trace w.
Proof.
  unfold open_db. destruct (database_up w); [|discriminate].
  intros [= <- <-]. auto.
Qed.

End LoopFacts.

(** C8. With [condition], [intervention] and [other_terms] all empty or
    absent, [scrape_trials] raises [ValueError] and the world is as it
    was: no request was sent, no connection to the database was opened,
    no statement was issued. *)
Theorem scrape_trials_validation `{Engine}
    (network : nat -> gmap string json -> reply) (now : nat -> Z) (fuel : nat)
    (c i o : option string) (max_trials : option Z) (ro : bool) (w : world) :
  (c = None \/ c = Some "") ->
  (i = None \/ i = Some "") ->
  (o = None \/ o = Some "") ->
  scrape_trials network now fuel c i o max_trials ro w = Some (Raise ValueError, w).
Proof.
  intros [-> | ->] [-> | ->] [-> | ->]; reflexivity.
Qed.

Lemma scrape_trials_validation_witness :
  scrape_trials (H:=Sample.engine) Sample.two_pages Sample.ticking 5
    None (Some "") None (Some 10) true Sample.fresh
    = Some (Raise ValueError, Sample.fresh).
Proof.
  apply (scrape_trials_validation (H:=Sample.engine) Sample.two_pages
           Sample.ticking 5 None (Some "") None (Some 10) true Sample.fresh);
    auto.
Defined.

(** C9. Once the filters are validated and the database is connected,
    every way out of the loop returns the total to the caller, and the
    total is the number of records stored during the run: whether the loop
    leaves on a page that could not be fetched after the retries of the
    client (or on any exception caught by the outer handler), on a
    response without [studies], on an empty [studies], on the record bound
    or on a page without a next-page token, after any number of pages,
    [scrape_trials] returns the total so far; and a run that returns at all
    returns such a total, never an exception. *)
Theorem scrape_trials_returns_total `{Engine}
    (network : nat -> gmap string json -> reply) (now : nat -> Z)
    (c i o : option string) (max_trials : option Z) (ro : bool)
    (w : world) (db0 : ClinicalTrialsDB) (w0 : world) :
  any_filter c i o = true ->
  open_db w = (Return db0, w0) ->
  (forall k why total db w',
      leaves network now c i o max_trials ro (search_terms_str c i o ro)
        k JNull 0 db0 w0 why (total, db, w') ->
      forall fuel, (k < fuel)%nat ->
        scrape_trials network now fuel c i o max_trials ro w
          = Some (Return total, close db w') /\
        List.length (stored (trace (close db w')))
          = (List.length (stored (trace w)) + total)%nat) /\
  (forall fuel r w'',
      scrape_trials network now fuel c i o max_trials ro w = Some (r, w'') ->
      exists total,
        r = Return total /\
        List.length (stored (trace w''))
          = (List.length (stored (trace w)) + total)%nat) /\
  (forall terms tok total db w1,
      (forall e w2,
          search_studies network c i o tok ro w1 = (Raise e, w2) ->
          page_body network now c i o max_trials ro terms tok total db w1
            = (Leave (Caught e), (total, db, w2))) /\
      (forall fields w2,
          search_studies network c i o tok ro w1 = (Return (JObj fields), w2) ->
          assoc "studies" fields = None ->
          page_body network now c i o max_trials ro terms tok total db w1
            = (Leave InvalidResponse, (total, db, w2))) /\
      (forall fields w2,
          search_studies network c i o tok ro w1 = (Return (JObj fields), w2) ->
          assoc "studies" fields = Some (JArr []) ->
          page_body network now c i o max_trials ro terms tok total db w1
            = (Leave NoStudies, (total, db, w2)))).
Proof.
  intros Hany Hopen.
  pose proof (open_db_returns w db0 w0 Hopen) as (_ & _ & Htrace0).
  assert (Hcount : forall fuel total db w',
            scrape_loop network now fuel c i o max_trials ro
              (search_terms_str c i o ro) JNull 0 db0 w0 = Some (total, db, w') ->
            List.length (stored (trace (close db w')))
              = (List.length (stored (trace w)) + total)%nat).
  { intros fuel total db w' Hloop.
    apply scrape_loop_grows in Hloop as (ext & (Ht & _) & ->).
    cbn [close trace stored]. rewrite Ht, stored_app, Htrace0, length_app.
    reflexivity. }
  split; [|split].
  - intros k why total db w' Hleaves fuel Hfuel.
    pose proof (scrape_loop_leaves network now _ _ _ _ _ _ _ _ _ _ _ _ _
                  Hleaves fuel Hfuel) as Hloop.
    split; [|eapply Hcount; eassumption].
    unfold scrape_trials. rewrite Hany, Hopen. cbn [negb]. now rewrite Hloop.
  - intros fuel r w''. unfold scrape_trials. rewrite Hany, Hopen. cbn [negb].
    destruct (scrape_loop _ _ _ _ _ _ _ _ _ _ _ _ _)
      as [[[total db] w']|] eqn:Hloop; [|discriminate].
    intros [= <- <-]. exists total. split; [reflexivity|].
    eapply Hcount; eassumption.
  - intros terms tok total db w1. apply page_body_leaves_early.
Qed.

Section BoundFacts.
Context `{Engine}.
Variable network : nat -> gmap string json -> reply.
Variable now : nat -> Z.

(** The bound is consulted through [bound_reached] only. *)
Lemma scrape_loop_same_bound m1 m2 :
  (forall total, bound_reached m1 total = bound_reached m2 total) ->
  forall fuel c i o ro terms tok total db w,
    scrape_loop network now fuel c i o m1 ro terms tok total db w =
    scrape_loop network now fuel c i o m2 ro terms tok total db w.
Proof.
  intros Hsame.
  assert (Hstudy : forall terms study total db w,
            process_study now terms m1 study total db w =
            process_study now terms m2 study total db w).
  { intros. rewrite !process_study_cases.
    destruct (submitted study) as [nct|]; [|reflexivity].
    destruct (key_of nct) as [k|]; [|reflexivity].
    destruct (insert_trial _ _ _ _ _) as [[rid|e] db1]; [|reflexivity].
    now rewrite Hsame. }
  assert (Hstudies : forall terms studies total db w,
            process_studies now terms m1 studies total db w =
            process_studies now terms m2 studies total db w).
  { intros terms studies. induction studies as [|study rest IH]; intros total db w.
    - reflexivity.
    - cbn [process_studies]. rewrite Hstudy.
      destruct (process_study now terms m2 study total db w)
        as [[|] [[total1 db1] w1]]; [apply IH|reflexivity]. }
  assert (Hpage : forall c i o ro terms tok total db w,
            page_body network now c i o m1 ro terms tok total db w =
            page_body network now c i o m2 ro terms tok total db w).
  { intros. unfold page_body.
    destruct (search_studies network c i o tok ro w) as [[response|e] w1];
      [|reflexivity].
    destruct response; try reflexivity.
    destruct (negb _ || negb _); [reflexivity|].
    destruct (negb (Py.truthy _)); [reflexivity|].
    destruct (iterate _); [|reflexivity]. now rewrite Hstudies. }
  induction fuel as [|fuel IH]; intros c i o ro terms tok total db w.
  - reflexivity.
  - rewrite !scrape_loop_unfold, Hpage.
    destruct (page_body network now c i o m2 ro terms tok total db w)
      as [[why|tok'] [[total1 db1] w1]]; [reflexivity|apply IH].
Qed.

(** Without bound, a study never ends in [return total_stored]. *)
Lemma process_studies_unbounded terms studies total db w sig st :
  process_studies now terms None studies total db w = (sig, st) -> sig = NextStudy.
Proof.
  destruct st as [[total' db'] w']. intros Hrun.
  apply process_studies_grows in Hrun as (ext & _ & _ & _ & Hsig).
  destruct sig; [reflexivity|]. destruct Hsig as [Hb _]; [reflexivity|].
  discriminate.
Qed.

(** One study under a bound [k] not yet reached: the same state as without
    bound, and [return total_stored] exactly when the total becomes [k],
    right after the committed call. *)
Lemma process_study_bound (k : nat) terms study total db w :
  (0 < k)%nat -> (total < k)%nat ->
  exists total1 db1 w1,
    process_study now terms None study total db w = (NextStudy, (total1, db1, w1)) /\
    (((total1 < k)%nat /\
      process_study now terms (Some (Z.of_nat k)) study total db w
        = (NextStudy, (total1, db1, w1))) \/
     (total1 = k /\
      (exists key, trace w1 = Executed key true :: trace w) /\
      process_study now terms (Some (Z.of_nat k)) study total db w
        = (ReturnTotal, (total1, db1, w1)))).
Proof.
  intros Hk Htotal. rewrite !process_study_cases.
  destruct (submitted study) as [nct|]; [|eauto 10].
  destruct (key_of nct) as [key|]; [|eauto 10].
  destruct (insert_trial _ _ _ _ _) as [[rid|e] db1]; [|eauto 10].
  rewrite bound_reached_none, (bound_reached_pos k (S total) Hk).
  do 3 eexists. split; [reflexivity|].
  destruct (Nat.leb_spec k (S total)).
  - right. split; [lia|]. split; [now exists key|reflexivity].
  - left. split; [lia|reflexivity].
Qed.

Lemma process_studies_bound (k : nat) terms studies :
  (0 < k)%nat ->
  forall total db w totalU dbU wU,
    (total < k)%nat ->
    process_studies now terms None studies total db w = (NextStudy, (totalU, dbU, wU)) ->
    ((totalU < k)%nat /\
     process_studies now terms (Some (Z.of_nat k)) studies total db w
       = (NextStudy, (totalU, dbU, wU))) \/
    (exists db_k w_k key before after,
        process_studies now terms (Some (Z.of_nat k)) studies total db w
          = (ReturnTotal, (k, db_k, w_k)) /\
        trace w_k = Executed key true :: before /\
        grows w_k wU after).
Proof.
  intros Hk. induction studies as [|study rest IH];
    intros total db w totalU dbU wU Htotal.
  - intros [= <- <- <-]. left. split; [exact Htotal|reflexivity].
  - cbn [process_studies].
    destruct (process_study_bound k terms study total db w Hk Htotal)
      as (total1 & db1 & w1 & -> & [[Ht1 ->]|(-> & [key Hkey] & ->)]).
    + intros Hrest. exact (IH _ _ _ _ _ _ Ht1 Hrest).
    + intros Hrest. right.
      apply process_studies_grows in Hrest as (after & Hg & _).
      exists db1, w1, key, (trace w), after. auto.
Qed.

Lemma page_body_bound (k : nat) c i o ro terms tok total db w stU totalU dbU wU :
  (0 < k)%nat -> (total < k)%nat ->
  page_body network now c i o None ro terms tok total db w
    = (stU, (totalU, dbU, wU)) ->
  ((totalU < k)%nat /\
   page_body network now c i o (Some (Z.of_nat k)) ro terms tok total db w
     = (stU, (totalU, dbU, wU))) \/
  (exists db_k w_k key before after,
      page_body network now c i o (Some (Z.of_nat k)) ro terms tok total db w
        = (Leave BoundReached, (k, db_k, w_k)) /\
      trace w_k = Executed key true :: before /\
      grows w_k wU after).
Proof.
  intros Hk Htotal. unfold page_body.
  destruct (search_studies network c i o tok ro w) as [[response|e] w1].
  2:{ intros [= <- <- <- <-]. left. auto. }
  destruct response as [| | | | | |fields];
    try (intros [= <- <- <- <-]; left; split; [exact Htotal|reflexivity]).
  destruct (negb _ || negb _);
    [intros [= <- <- <- <-]; left; split; [exact Htotal|reflexivity]|].
  destruct (negb (Py.truthy _));
    [intros [= <- <- <- <-]; left; split; [exact Htotal|reflexivity]|].
  destruct (iterate _) as [items|e];
    [|intros [= <- <- <- <-]; left; split; [exact Htotal|reflexivity]].
  destruct (process_studies now terms None items total db w1)
    as [sig [[total2 db2] w2]] eqn:Hitems.
  pose proof (process_studies_unbounded _ _ _ _ _ _ _ Hitems) as ->.
  destruct (process_studies_bound k terms items Hk _ _ _ _ _ _ Htotal Hitems)
    as [[Ht2 ->]|(db_k & w_k & key & before & after & -> & Hkey & Hg)].
  - intros Hst. left. split; [|exact Hst].
    destruct (negb (Py.truthy _)); injection Hst as <- <- <- <-; exact Ht2.
  - intros Hst. right. exists db_k, w_k, key, before, after.
    split; [reflexivity|]. split; [exact Hkey|].
    destruct (negb (Py.truthy _)); injection Hst as <- <- <- <-; exact Hg.
Qed.

(** A run with bound [k] is the run without bound, cut right after its
    [k]-th committed call. *)
Lemma scrape_loop_bound (k : nat) c i o ro terms :
  (0 < k)%nat ->
  forall fuel tok total db w N dbU wU,
    (total < k)%nat -> (k <= N)%nat ->
    scrape_loop network now fuel c i o None ro terms tok total db w
      = Some (N, dbU, wU) ->
    exists db_k w_k key before after,
      scrape_loop network now fuel c i o (Some (Z.of_nat k)) ro terms tok total db w
        = Some (k, db_k, w_k) /\
      trace w_k = Executed key true :: before /\
      grows w_k wU after.
Proof.
  intros Hk. induction fuel as [|fuel IH];
    intros tok total db w N dbU wU Htotal HN; [discriminate|].
  rewrite !scrape_loop_unfold.
  destruct (page_body network now c i o None ro terms tok total db w)
    as [stU [[total1 db1] w1]] eqn:Hpage.
  destruct (page_body_bound k _ _ _ _ _ _ _ _ _ _ _ _ _ Hk Htotal Hpage)
    as [[Ht1 ->]|(db_k & w_k & key & before & after & -> & Hkey & Hg)].
  - destruct stU as [why|tok'].
    + intros [= <- <- <-]. lia.
    + intros Hrest. exact (IH _ _ _ _ _ _ _ Ht1 HN Hrest).
  - intros Hrest. exists db_k, w_k, key, before.
    destruct stU as [why|tok'].
    + injection Hrest as <- <- <-. exists after. auto.
    + apply scrape_loop_grows in Hrest as (ext & Hg2 & _).
      exists (ext ++ after)%list. split; [reflexivity|]. split; [exact Hkey|].
      eapply grows_trans; eassumption.
Qed.

End BoundFacts.

(** C10. A bound of 0 is no bound: [max_trials = 0] is falsy, the test of
    the bound never holds, and the run is the run with [max_trials = None],
    result and effects alike. *)
Theorem scrape_trials_zero_bound `{Engine}
    (network : nat -> gmap string json -> reply) (now : nat -> Z) (fuel : nat)
    (c i o : option string) (ro : bool) (w : world) :
  scrape_trials network now fuel c i o (Some 0) ro w =
  scrape_trials network now fuel c i o None ro w.
Proof.
  unfold scrape_trials.
  destruct (negb (any_filter c i o)); [reflexivity|].
  destruct (open_db w) as [[db0|e] w0]; [|reflexivity].
  now rewrite (scrape_loop_same_bound network now (Some 0) None).
Qed.

Section PaginationFacts.
Context `{Engine}.
Variable network : nat -> gmap string json -> reply.
Variable now : nat -> Z.




(** A registry that answers every request at once. *)
Lemma search_studies_answered registry c i o tok ro w :
  (forall n params, read_reply (network n params) = Return (registry params)) ->
  search_studies network c i o tok ro w
    = (Return (registry (build_params c i o tok ro)),
       record (Requested (build_params c i o tok ro)) w).
Proof.
  intros Hnet. unfold search_studies. rewrite retry_three.
  unfold search_studies_attempt. now rewrite Hnet.
Qed.



End PaginationFacts.

(** C9, run: the bound is 2 and the first page holds three identified
    studies; the loop is left by [return total_stored] on its first turn,
    and [scrape_trials] returns the total 2, with two records stored. *)
Lemma scrape_trials_returns_total_witness :
  exists db w',
    scrape_trials (H:=Sample.engine) Sample.two_pages
      Sample.ticking 1 (Some "diabetes") None None (Some 2) false Sample.fresh
      = Some (Return 2%nat, close db w') /\
    List.length (stored (trace (close db w')))
      = (List.length (stored (trace Sample.fresh)) + 2)%nat.
Proof.
  eexists. eexists.
  refine (proj1 (scrape_trials_returns_total (H:=Sample.engine)
                   Sample.two_pages Sample.ticking
                   (Some "diabetes") None None (Some 2) false Sample.fresh
                   (connect None)
                   {| trace := [Connected]; database := Some (∅, 1);
                      database_up := true |} _ _)
            0%nat BoundReached 2%nat _ _ _ 1%nat _).
  - reflexivity.
  - reflexivity.
  - apply leaves_now. reflexivity.
  - lia.
Defined.

(** C3. A run with the bound [k >= 1], when the run without bound stores
    more than [k] records, is that run cut right after its [k]-th stored
    record: it returns [k], has stored exactly the first [k] records, and
    its last effect before closing the connection is the [k]-th store, so
    that no page is requested after it. In the example (filter
    [condition="diabetes"], bound 2, a first page with NCT01, NCT02 and
    NCT03 that points to a second page) the run stores NCT01 and NCT02,
    returns 2 and has sent the one request of the first page. *)
Theorem scrape_trials_bound :
  (forall (E : Engine) (network : nat -> gmap string json -> reply)
          (now : nat -> Z) (fuel : nat) (c i o : option string) (ro : bool)
          (w : world) (k N : nat) (w_all : world),
      (0 < k)%nat ->
      scrape_trials network now fuel c i o None ro w = Some (Return N, w_all) ->
      (k < N)%nat ->
      exists w_k key before after,
        scrape_trials network now fuel c i o (Some (Z.of_nat k)) ro w
          = Some (Return k, w_k) /\
        trace w_k = Closed :: Executed key true :: before /\
        trace w_all = Closed :: (after ++ Executed key true :: before)%list /\
        List.length (stored (trace w_k)) = (List.length (stored (trace w)) + k)%nat) /\
  (forall fuel : nat,
      exists w',
        scrape_trials (H:=Sample.engine) Sample.two_pages Sample.ticking (S fuel)
          (Some "diabetes") None None (Some 2) false Sample.fresh
          = Some (Return 2%nat, w') /\
        stored (trace w') = ["NCT01"; "NCT02"] /\
        requests (trace w') = [build_params (Some "diabetes") None None JNull false] /\
        build_params (Some "diabetes") None None JNull false !! "pageToken" = None /\
        exists table seq,
          database w' = Some (table, seq) /\ dom table = {["NCT01"; "NCT02"]}).
Proof.
  split.
  - intros E network now fuel c i o ro w k N w_all Hk Hall HN.
    unfold scrape_trials in *.
    destruct (any_filter c i o); [|discriminate]. cbn [negb] in *.
    destruct (open_db w) as [[db0|e] w0] eqn:Hopen; [|discriminate].
    apply open_db_returns in Hopen as (_ & _ & Htrace0).
    destruct (scrape_loop network now fuel c i o None ro _ JNull 0 db0 w0)
      as [[[N' dbU] wU]|] eqn:HloopU; [|discriminate].
    injection Hall as -> <-.
    destruct (scrape_loop_bound network now k c i o ro _ Hk
                fuel JNull 0%nat db0 w0 N dbU wU Hk (Nat.lt_le_incl _ _ HN) HloopU)
      as (db_k & w_k & key & before & after & Hloop & Hkey & (Hafter & _)).
    rewrite Hloop. exists (close db_k w_k), key, before, after.
    split; [reflexivity|]. cbn [close trace].
    split; [now rewrite Hkey|]. split; [now rewrite Hafter, Hkey|].
    apply scrape_loop_grows in Hloop as (ext & (Hext & _) & Hcount).
    rewrite Hext, Htrace0. cbn [stored]. rewrite stored_app, length_app.
    cbn [stored]. lia.
  - intros fuel. eexists. split; [reflexivity|].
    split; [reflexivity|]. split; [reflexivity|]. split; [reflexivity|].
    eexists. eexists. split; [reflexivity|]. vm_compute. reflexivity.
Qed.

Lemma scrape_trials_bound_witness :
  exists w_k key before after,
    scrape_trials (H:=Sample.engine) Sample.two_pages Sample.ticking 2
      (Some "diabetes") None None (Some (Z.of_nat 3)) false Sample.fresh
      = Some (Return 3%nat, w_k) /\
    trace w_k = Closed :: Executed key true :: before /\
    trace Sample.after_all = Closed :: (after ++ Executed key true :: before)%list /\
    List.length (stored (trace w_k))
      = (List.length (stored (trace Sample.fresh)) + 3)%nat.
Proof.
  refine (proj1 scrape_trials_bound Sample.engine Sample.two_pages Sample.ticking
            2%nat (Some "diabetes") None None false Sample.fresh
            3%nat 4%nat Sample.after_all _ _ _).
  - lia.
  - vm_compute. reflexivity.
  - lia.
Defined.

Section Counting.
Context `{Engine}.


End Counting.




(** * Further properties *)

(** ** ClinicalTrialsDB *)

Section RepositoryInvariants.
Context `{Engine}.

Lemma starts_with_refl (s : string) : Text.starts_with s s = true.
Proof.
  rewrite <- (TextFacts.append_empty_r s) at 2. apply TextFacts.starts_with_app.
Qed.

Lemma starts_with_trans (a b c : string) :
  Text.starts_with a b = true -> Text.starts_with b c = true ->
  Text.starts_with a c = true.
Proof.
  intros Hab Hbc.
  apply TextFacts.starts_with_inv in Hab as [t ->].
  apply TextFacts.starts_with_inv in Hbc as [u ->].
  rewrite TextFacts.append_assoc. apply TextFacts.starts_with_app.
Qed.

(** The merged text begins with the stored text. *)
Lemma merge_search_terms_extends (cur ann : string) :
  exists cur', merge_search_terms (Some cur) ann = Some cur' /\
               Text.starts_with cur cur' = true.
Proof.
  unfold merge_search_terms. destruct (0 <? Text.position ann cur)%nat.
  - exists cur. split; [reflexivity|apply starts_with_refl].
  - eexists. split; [reflexivity|apply TextFacts.starts_with_app].
Qed.

(** The annotation occurs in the merged text. *)
Lemma merge_search_terms_covers (stored : option string) (ann : string) :
  exists cur', merge_search_terms stored ann = Some cur' /\ Text.occurs ann cur'.
Proof.
  destruct stored as [cur|]; unfold merge_search_terms.
  - destruct (Nat.ltb_spec 0 (Text.position ann cur)).
    + exists cur. split; [reflexivity|now apply TextFacts.position_occurs].
    + eexists. split; [reflexivity|apply TextFacts.occurs_appended].
  - exists ann. split; [reflexivity|apply TextFacts.occurs_refl].
Qed.

Lemma row_kept_refl r : row_kept r r.
Proof.
  repeat split. intros cur Hcur. exists cur. split; [exact Hcur|apply starts_with_refl].
Qed.

Lemma row_kept_trans r1 r2 r3 : row_kept r1 r2 -> row_kept r2 r3 -> row_kept r1 r3.
Proof.
  intros (Hi1 & Hn1 & Hc1 & Ht1) (Hi2 & Hn2 & Hc2 & Ht2).
  split; [congruence|]. split; [congruence|]. split; [congruence|].
  intros cur Hcur. destruct (Ht1 cur Hcur) as (cur2 & Hcur2 & Hp2).
  destruct (Ht2 cur2 Hcur2) as (cur3 & Hcur3 & Hp3).
  exists cur3. split; [exact Hcur3|]. eapply starts_with_trans; eassumption.
Qed.

Lemma table_kept_refl t : table_kept t t.
Proof. intros key old Hold. exists old. split; [exact Hold|apply row_kept_refl]. Qed.

Lemma table_kept_trans t1 t2 t3 :
  table_kept t1 t2 -> table_kept t2 t3 -> table_kept t1 t3.
Proof.
  intros H12 H23 key r1 Hr1. destruct (H12 key r1 Hr1) as (r2 & Hr2 & Hk12).
  destruct (H23 key r2 Hr2) as (r3 & Hr3 & Hk23).
  exists r3. split; [exact Hr3|]. eapply row_kept_trans; eassumption.
Qed.

(** A call of [insert_trial], whatever it does: the table is the one given,
    or the one given with the row written under the key of the call. *)
Lemma insert_trial_table db nct d ann now res db' :
  insert_trial db nct d ann now = (res, db') ->
  (exists e, res = Raise e /\ clinical_trials db' = clinical_trials db) \/
  (exists new,
      proposed_row db nct d ann now = Return new /\
      failed_transaction db = false /\
      let written := match clinical_trials db !! nct_id new with
                     | None => new
                     | Some old => on_conflict_update old new ann now
                     end in
      res = Return (id written) /\
      clinical_trials db' = <[nct_id new := written]> (clinical_trials db) /\
      id_seq db' = id_seq db + 1 /\ failed_transaction db' = false).
Proof.
  unfold insert_trial. destruct (failed_transaction db).
  { intros [= <- <-]. left. eauto. }
  destruct (proposed_row db nct d ann now) as [new|e].
  - intros [= <- <-]. right. exists new. cbn. auto 10.
  - intros [= <- <-]. left. eauto.
Qed.

(** What occurs in a text occurs in every text that begins with it. *)
Lemma occurs_extended (a cur cur' : string) :
  Text.occurs a cur -> Text.starts_with cur cur' = true -> Text.occurs a cur'.
Proof.
  intros (pre & post & ->) Hp. apply TextFacts.starts_with_inv in Hp as [t ->].
  exists pre, (post +:+ t). now rewrite !TextFacts.append_assoc.
Qed.

(** Every record is kept by a call of [insert_trial]. *)
Lemma insert_trial_kept db nct d ann now res db' :
  insert_trial db nct d ann now = (res, db') ->
  table_kept (clinical_trials db) (clinical_trials db').
Proof.
  intros Hins.
  apply insert_trial_table in Hins
    as [(e & _ & ->)|(new & _ & _ & _ & -> & _)]; [apply table_kept_refl|].
  intros key old Hold.
  destruct (decide (nct_id new = key)) as [<-|Hne].
  - rewrite lookup_insert_eq, Hold. eexists. split; [reflexivity|].
    unfold row_kept. cbn. repeat split.
    intros cur ->. apply merge_search_terms_extends.
  - rewrite lookup_insert_ne by exact Hne.
    exists old. split; [exact Hold|apply row_kept_refl].
Qed.

(** After a call that returns, the annotation occurs in the row written. *)
Lemma insert_trial_covered db nct d ann now rid db' :
  insert_trial db nct d ann now = (Return rid, db') ->
  exists key new cur,
    Sql.varchar 255 nct = Return key /\
    clinical_trials db' !! key = Some new /\
    search_terms new = Some cur /\ Text.occurs ann cur.
Proof.
  intros Hins.
  apply insert_trial_table in Hins
    as [(e & He & _)|(new & Hp & _ & _ & Htbl & _)]; [discriminate|].
  apply proposed_row_inv in Hp as (Hk & _ & _ & _ & _ & _ & _ & Hst & _).
  destruct (clinical_trials db !! nct_id new) as [old|] eqn:Hold.
  - destruct (merge_search_terms_covers (search_terms old) ann) as (cur & Hcur & Hocc).
    exists (nct_id new). eexists. exists cur. split; [exact Hk|].
    rewrite Htbl, lookup_insert_eq. split; [reflexivity|]. cbn. auto.
  - exists (nct_id new), new, ann. split; [exact Hk|].
    rewrite Htbl, lookup_insert_eq. split; [reflexivity|].
    split; [exact Hst|apply TextFacts.occurs_refl].
Qed.

End RepositoryInvariants.

(** X1. Generated columns stay consistent: when every row of the table
    is stored under its [nct_id] with the [has_results], [overall_status]
    and [phase] that the column expressions give for its [data], the same
    holds after a call of [insert_trial], whether it returns or raises. *)
Theorem insert_trial_keeps_consistent `{Engine} (db : ClinicalTrialsDB)
    (nct : string) (d : json) (ann : string) (now : Z)
    (res : result Z) (db' : ClinicalTrialsDB) :
  (forall key r, clinical_trials db !! key = Some r -> consistent key r) ->
  insert_trial db nct d ann now = (res, db') ->
  forall key r, clinical_trials db' !! key = Some r -> consistent key r.
Proof.
  intros Hinv Hins key r.
  apply insert_trial_table in Hins
    as [(e & _ & ->)|(new & Hp & _ & _ & -> & _)]; [apply Hinv|].
  apply proposed_row_inv in Hp as (_ & _ & Hhr & Hos & Hph & _ & Hd & _).
  destruct (decide (nct_id new = key)) as [<-|Hne].
  - rewrite lookup_insert_eq. intros [= <-].
    destruct (clinical_trials db !! nct_id new) as [old|] eqn:Hold.
    + destruct (Hinv _ _ Hold) as (Hkey & _).
      unfold consistent. cbn. rewrite Hd. auto.
    + unfold consistent. rewrite Hd. auto.
  - rewrite lookup_insert_ne by exact Hne. apply Hinv.
Qed.

Lemma insert_trial_keeps_consistent_witness :
  consistent (H:=Sample.engine) "NCT01"
    {| id := 1; nct_id := "NCT01"; data := Sample.study "NCT01" "COMPLETED";
       has_results := Some true; overall_status := Some "COMPLETED";
       phase := Some (Text.quoted "PHASE2");
       search_terms := Some "condition:brain cancer";
       created_at := 1000; last_updated_at := 1000 |}.
Proof.
  refine (insert_trial_keeps_consistent (H:=Sample.engine) (connect None)
            "NCT01" (Sample.study "NCT01" "COMPLETED") "condition:brain cancer"
            1000 (Return 1) Sample.annotated _ _ "NCT01" _ _).
  - intros key r Hr. cbn in Hr. rewrite lookup_empty in Hr. discriminate.
  - vm_compute. reflexivity.
  - vm_compute. reflexivity.
Defined.

(** X2. Insert, then look up: after a call of [insert_trial] that returns
    [rid], the table holds under the key of the call a row with the
    payload passed, [id = rid] and [last_updated_at = now]; for a key not
    seen before, [rid] is the next value of the sequence, [created_at] is
    [now] and [search_terms] is the annotation; for a key seen before,
    [rid], [nct_id] and [created_at] are those of the row that was
    there. *)
Theorem insert_trial_lookup `{Engine} (db : ClinicalTrialsDB)
    (nct : string) (d : json) (ann : string) (now : Z)
    (rid : Z) (db' : ClinicalTrialsDB) :
  insert_trial db nct d ann now = (Return rid, db') ->
  exists key new,
    Sql.varchar 255 nct = Return key /\
    clinical_trials db' !! key = Some new /\
    id new = rid /\ data new = d /\ last_updated_at new = now /\
    match clinical_trials db !! key with
    | None =>
        rid = id_seq db /\ nct_id new = key /\ created_at new = now /\
        search_terms new = Some ann
    | Some old =>
        rid = id old /\ nct_id new = nct_id old /\
        created_at new = created_at old
    end.
Proof.
  intros Hins.
  apply insert_trial_table in Hins
    as [(e & He & _)|(new & Hp & _ & Hrid & Htbl & _)]; [discriminate|].
  apply proposed_row_inv in Hp as (Hk & _ & _ & _ & _ & Hid & Hd & Hst & Hc & Hu).
  injection Hrid as ->.
  exists (nct_id new). eexists. split; [exact Hk|].
  rewrite Htbl, lookup_insert_eq. split; [reflexivity|].
  destruct (clinical_trials db !! nct_id new) as [old|]; cbn; auto 10.
Qed.

Lemma insert_trial_lookup_witness :
  exists key new,
    Sql.varchar 255 "NCT01" = Return key /\
    clinical_trials Sample.annotated !! key = Some new /\
    id new = 1 /\ data new = Sample.study "NCT01" "COMPLETED" /\
    last_updated_at new = 1000 /\
    match clinical_trials (connect None) !! key with
    | None =>
        1 = id_seq (connect None) /\ nct_id new = key /\ created_at new = 1000 /\
        search_terms new = Some "condition:brain cancer"
    | Some old =>
        1 = id old /\ nct_id new = nct_id old /\
        created_at new = created_at old
    end.
Proof.
  refine (insert_trial_lookup (H:=Sample.engine) (connect None) "NCT01"
            (Sample.study "NCT01" "COMPLETED") "condition:brain cancer" 1000
            1 Sample.annotated _).
  vm_compute. reflexivity.
Defined.

(** X3. After a call of [insert_trial] that returns, the annotation of
    the call occurs in the [search_terms] of the row written, which is
    never null. *)
Theorem insert_trial_covers `{Engine} (db : ClinicalTrialsDB)
    (nct : string) (d : json) (ann : string) (now : Z)
    (rid : Z) (db' : ClinicalTrialsDB) :
  insert_trial db nct d ann now = (Return rid, db') ->
  exists key new cur,
    Sql.varchar 255 nct = Return key /\
    clinical_trials db' !! key = Some new /\
    search_terms new = Some cur /\ Text.occurs ann cur.
Proof.
  intros Hins.
  destruct (insert_trial_covered db nct d ann now rid db' Hins)
    as (key & new & cur & Hk & Hnew & Hcur & Hocc).
  exists key, new, cur. auto.
Qed.

Lemma insert_trial_covers_witness :
  exists key new cur,
    Sql.varchar 255 "NCT01" = Return key /\
    clinical_trials
      (insert_trial (H:=Sample.engine) Sample.annotated "NCT01"
         (Sample.study "NCT01" "COMPLETED") "condition:brain" 1001).2
      !! key = Some new /\
    search_terms new = Some cur /\ Text.occurs "condition:brain" cur.
Proof.
  refine (insert_trial_covers (H:=Sample.engine) Sample.annotated "NCT01"
            (Sample.study "NCT01" "COMPLETED") "condition:brain" 1001 1 _ _).
  vm_compute. reflexivity.
Defined.

(** X4. A call of [insert_trial] changes at most the record of its key:
    every other record is as it was; and a call that raises changes no
    record at all. *)
Theorem insert_trial_frame `{Engine} (db : ClinicalTrialsDB)
    (nct : string) (d : json) (ann : string) (now : Z)
    (res : result Z) (db' : ClinicalTrialsDB) :
  insert_trial db nct d ann now = (res, db') ->
  (forall key other,
      Sql.varchar 255 nct = Return key -> other <> key ->
      clinical_trials db' !! other = clinical_trials db !! other) /\
  (forall e, res = Raise e -> clinical_trials db' = clinical_trials db).
Proof.
  intros Hins.
  apply insert_trial_table in Hins
    as [(e & -> & Htbl)|(new & Hp & _ & -> & Htbl & _)].
  - split; [intros; now rewrite Htbl|auto].
  - apply proposed_row_inv in Hp as (Hk & _).
    split; [|discriminate].
    intros key other Hkey Hne. rewrite Hk in Hkey. injection Hkey as <-.
    rewrite Htbl. apply lookup_insert_ne. congruence.
Qed.

Lemma insert_trial_frame_witness :
  (forall key other,
      Sql.varchar 255 "NCT02" = Return key -> other <> key ->
      clinical_trials
        (insert_trial (H:=Sample.engine) Sample.annotated "NCT02"
           (Sample.study "NCT02" "RECRUITING") "condition:brain" 1001).2 !! other
      = clinical_trials Sample.annotated !! other) /\
  (forall e,
      (insert_trial (H:=Sample.engine) Sample.annotated "NCT02"
         (Sample.study "NCT02" "RECRUITING") "condition:brain" 1001).1 = Raise e ->
      clinical_trials
        (insert_trial (H:=Sample.engine) Sample.annotated "NCT02"
           (Sample.study "NCT02" "RECRUITING") "condition:brain" 1001).2
      = clinical_trials Sample.annotated).
Proof.
  refine (insert_trial_frame (H:=Sample.engine) Sample.annotated "NCT02"
            (Sample.study "NCT02" "RECRUITING") "condition:brain" 1001 _ _ _).
  apply surjective_pairing.
Defined.

(** X5. No call of [insert_trial] loses a record or what identifies it:
    every record of the table is still there afterwards, with the same
    [id], [nct_id] and [created_at], and its [search_terms], when it had
    any, is the beginning of the [search_terms] it has now. *)
Theorem insert_trial_keeps_table `{Engine} (db : ClinicalTrialsDB)
    (nct : string) (d : json) (ann : string) (now : Z)
    (res : result Z) (db' : ClinicalTrialsDB) :
  insert_trial db nct d ann now = (res, db') ->
  forall key old,
    clinical_trials db !! key = Some old ->
    exists new,
      clinical_trials db' !! key = Some new /\
      id new = id old /\ nct_id new = nct_id old /\
      created_at new = created_at old /\
      forall cur, search_terms old = Some cur ->
        exists cur', search_terms new = Some cur' /\
                     Text.starts_with cur cur' = true.
Proof.
  intros Hins key old Hold.
  destruct (insert_trial_kept db nct d ann now res db' Hins key old Hold)
    as (new & Hnew & Hid & Hnct & Hcreated & Hterms).
  exists new. auto.
Qed.

Lemma insert_trial_keeps_table_witness :
  exists new,
    clinical_trials
      (insert_trial (H:=Sample.engine) Sample.annotated "NCT01"
         (Sample.study "NCT01" "RECRUITING") "condition:diabetes" 1001).2
      !! "NCT01" = Some new /\
    id new = 1 /\ nct_id new = "NCT01" /\ created_at new = 1000 /\
    forall cur, Some "condition:brain cancer" = Some cur ->
      exists cur', search_terms new = Some cur' /\
                   Text.starts_with cur cur' = true.
Proof.
  refine (insert_trial_keeps_table (H:=Sample.engine) Sample.annotated "NCT01"
            (Sample.study "NCT01" "RECRUITING") "condition:diabetes" 1001 _ _ _
            "NCT01"
            {| id := 1; nct_id := "NCT01"; data := Sample.study "NCT01" "COMPLETED";
               has_results := Some true; overall_status := Some "COMPLETED";
               phase := Some (Text.quoted "PHASE2");
               search_terms := Some "condition:brain cancer";
               created_at := 1000; last_updated_at := 1000 |} _).
  - apply surjective_pairing.
  - vm_compute. reflexivity.
Defined.



(** ** ClinicalTrialsClient *)

(** X7. [search_studies] returns at the first attempt that succeeds: the
    page of the first attempt after one request and no wait; when the
    first attempt fails, the page of the second after two requests and one
    wait of 4. *)
Theorem search_studies_first_success
    (network : nat -> gmap string json -> reply)
    (c i o : option string) (tok : json) (ro : bool) (w : world) :
  let params := build_params c i o tok ro in
  let n := List.length (requests (trace w)) in
  (forall page,
      read_reply (network n params) = Return page ->
      search_studies network c i o tok ro w
        = (Return page, record (Requested params) w)) /\
  (forall e page,
      read_reply (network n params) = Raise e ->
      read_reply (network (n + 1)%nat params) = Return page ->
      search_studies network c i o tok ro w
        = (Return page,
           record (Requested params)
             (record (Slept 4) (record (Requested params) w)))).
Proof.
  intros params n. unfold search_studies. rewrite retry_three.
  unfold search_studies_attempt. fold params. cbn [requests trace record].
  rewrite !length_app. cbn [List.length]. fold n.
  split.
  - intros page ->. reflexivity.
  - intros e page -> ->. reflexivity.
Qed.

Lemma search_studies_first_success_witness :
  search_studies (Sample.down_first 1) (Some "diabetes") None None JNull false
    Sample.fresh
  = (Return (Sample.page [Sample.study "NCT01" "COMPLETED"] None),
     record (Requested (build_params (Some "diabetes") None None JNull false))
       (record (Slept 4)
          (record (Requested (build_params (Some "diabetes") None None JNull false))
             Sample.fresh))).
Proof.
  refine (proj2 (search_studies_first_success (Sample.down_first 1)
                   (Some "diabetes") None None JNull false Sample.fresh)
            (RequestException Timeout) _ _ _); reflexivity.
Defined.

(** ** scrape_trials: what a run keeps *)

Section RunInvariant.
Context `{Engine}.
Variable network : nat -> gmap string json -> reply.
Variable now : nat -> Z.
Variables (c i o : option string) (max_trials : option Z) (ro : bool).
Variable terms : string.

(** A property of the total, the connection and the world that the three
    effects of the loop preserve. *)
Variable P : nat -> ClinicalTrialsDB -> world -> Prop.

Hypothesis P_requested : forall total db w token,
  P total db w -> P total db (record (Requested (build_params c i o token ro)) w).

Hypothesis P_slept : forall total db w,
  P total db w -> P total db (record (Slept 4) w).

Hypothesis P_executed : forall total db w key d,
  P total db w ->
  match insert_trial db key d terms (now (statements (trace w))) with
  | (Return _, db1) => P (S total) db1 (record (Executed key true) w)
  | (Raise _, db1) => P total db1 (record (Executed key false) w)
  end.

Lemma search_studies_invariant tok total db w r w' :
  P total db w ->
  search_studies network c i o tok ro w = (r, w') ->
  P total db w'.
Proof using P_requested P_slept.
  intros HP. unfold search_studies. rewrite retry_three.
  unfold search_studies_attempt. rewrite !wait_exponential_values.
  cbn [Nat.leb].
  destruct (read_reply _); [intros [= <- <-]; auto|].
  destruct (read_reply _); [intros [= <- <-]; auto|].
  destruct (read_reply _); intros [= <- <-]; auto 10.
Qed.

Lemma process_study_invariant study total db w sig total' db' w' :
  P total db w ->
  process_study now terms max_trials study total db w = (sig, (total', db', w')) ->
  P total' db' w'.
Proof using P_executed.
  intros HP. rewrite process_study_cases.
  destruct (submitted study) as [nct|]; [|now intros [= <- <- <- <-]].
  destruct (key_of nct) as [key|]; [|now intros [= <- <- <- <-]].
  pose proof (P_executed total db w key study HP) as Hins.
  destruct (insert_trial db key study terms _) as [[rid|e] db1];
    now intros [= <- <- <- <-].
Qed.

Lemma process_studies_invariant studies total db w sig total' db' w' :
  P total db w ->
  process_studies now terms max_trials studies total db w = (sig, (total', db', w')) ->
  P total' db' w'.
Proof using P_executed.
  revert total db w. induction studies as [|study rest IH]; intros total db w HP.
  - now intros [= <- <- <- <-].
  - cbn [process_studies].
    destruct (process_study now terms max_trials study total db w)
      as [sig1 [[total1 db1] w1]] eqn:Hstudy.
    pose proof (process_study_invariant _ _ _ _ _ _ _ _ HP Hstudy) as HP1.
    destruct sig1; [now apply IH|now intros [= <- <- <- <-]].
Qed.

Lemma page_body_invariant tok total db w st total' db' w' :
  P total db w ->
  page_body network now c i o max_trials ro terms tok total db w
    = (st, (total', db', w')) ->
  P total' db' w'.
Proof using P_requested P_slept P_executed.
  intros HP. unfold page_body.
  destruct (search_studies network c i o tok ro w) as [r w1] eqn:Hsearch.
  pose proof (search_studies_invariant _ _ _ _ _ _ HP Hsearch) as HP1.
  destruct r as [response|e]; [|now intros [= <- <- <- <-]].
  destruct response; try now intros [= <- <- <- <-].
  destruct (negb _ || negb _); [now intros [= <- <- <- <-]|].
  destruct (negb (Py.truthy _)); [now intros [= <- <- <- <-]|].
  destruct (iterate _) as [items|e]; [|now intros [= <- <- <- <-]].
  destruct (process_studies now terms max_trials items total db w1)
    as [sig [[total2 db2] w2]] eqn:Hitems.
  pose proof (process_studies_invariant _ _ _ _ _ _ _ _ HP1 Hitems) as HP2.
  destruct sig; [|now intros [= <- <- <- <-]].
  destruct (negb (Py.truthy _)); now intros [= <- <- <- <-].
Qed.

(** The loop preserves what its effects preserve. *)
Lemma scrape_loop_invariant fuel tok total db w total' db' w' :
  P total db w ->
  scrape_loop network now fuel c i o max_trials ro terms tok total db w
    = Some (total', db', w') ->
  P total' db' w'.
Proof using P_requested P_slept P_executed.
  revert tok total db w. induction fuel as [|fuel IH]; intros tok total db w HP.
  { discriminate. }
  rewrite scrape_loop_unfold.
  destruct (page_body network now c i o max_trials ro terms tok total db w)
    as [st [[total1 db1] w1]] eqn:Hpage.
  pose proof (page_body_invariant _ _ _ _ _ _ _ _ HP Hpage) as HP1.
  destruct st as [why|tok']; [now intros [= <- <- <-]|now apply IH].
Qed.

End RunInvariant.

Section RunFacts.
Context `{Engine}.
Variable network : nat -> gmap string json -> reply.
Variable now : nat -> Z.

(** The three ways in which [scrape_trials] ends. *)
Lemma scrape_trials_cases fuel c i o max_trials ro w r w' :
  scrape_trials network now fuel c i o max_trials ro w = Some (r, w') ->
  (any_filter c i o = false /\ r = Raise ValueError /\ w' = w) \/
  (any_filter c i o = true /\ database_up w = false /\
   r = Raise OperationalError /\ w' = w) \/
  (any_filter c i o = true /\ database_up w = true /\
   exists total db w1,
     scrape_loop network now fuel c i o max_trials ro (search_terms_str c i o ro)
       JNull 0 (connect (database w))
       {| trace := Connected :: trace w;
          database := Some (create_tables (database w));
          database_up := true |}
       = Some (total, db, w1) /\
     r = Return total /\ w' = close db w1).
Proof.
  unfold scrape_trials, open_db.
  destruct (any_filter c i o); cbn [negb]; [|intros [= <- <-]; auto].
  destruct (database_up w) eqn:Hup; [|intros [= <- <-]; auto 10].
  destruct (scrape_loop _ _ _ _ _ _ _ _ _ _ _ _ _) as [[[total db] w1]|] eqn:Hloop;
    [|discriminate].
  intros [= <- <-]. right. right. eauto 10.
Qed.

End RunFacts.

(** X8. The effects of a run. A run that ends has either raised
    [ValueError] or [OperationalError] and done nothing, or returned a
    total after opening one connection, closing it as its last effect, and
    in between only sending requests built from its own filters (with some
    page token), waiting 4 time units between attempts, and calling
    [insert_trial]. *)
Theorem scrape_trials_effects `{Engine}
    (network : nat -> gmap string json -> reply) (now : nat -> Z) (fuel : nat)
    (c i o : option string) (max_trials : option Z) (ro : bool)
    (w : world) (r : result nat) (w' : world) :
  scrape_trials network now fuel c i o max_trials ro w = Some (r, w') ->
  (r = Raise ValueError /\ w' = w) \/
  (r = Raise OperationalError /\ w' = w) \/
  (exists total ext,
      r = Return total /\
      trace w' = Closed :: (ext ++ Connected :: trace w)%list /\
      Forall (run_event c i o ro) ext).
Proof.
  intros Hrun.
  apply scrape_trials_cases in Hrun
    as [(_ & -> & ->)|[(_ & _ & -> & ->)|(_ & _ & total & db & w1 & Hloop & -> & ->)]];
    [auto|auto|].
  right. right. exists total.
  pose (P := fun (_ : nat) (_ : ClinicalTrialsDB) (w1 : world) =>
               exists ext, trace w1 = (ext ++ Connected :: trace w)%list /\
                           Forall (run_event c i o ro) ext).
  assert (HP : P total db w1).
  { refine (scrape_loop_invariant network now c i o max_trials ro _ P _ _ _
              fuel JNull 0%nat _ _ total db w1 _ Hloop).
    - intros t d w0 token (ext & Hext & Hall).
      exists (Requested (build_params c i o token ro) :: ext). cbn.
      rewrite Hext. split; [reflexivity|]. constructor; [now exists token|exact Hall].
    - intros t d w0 (ext & Hext & Hall).
      exists (Slept 4 :: ext). cbn. rewrite Hext.
      split; [reflexivity|]. constructor; [reflexivity|exact Hall].
    - intros t d w0 key doc (ext & Hext & Hall).
      destruct (insert_trial d key doc _ _) as [[rid|e] d1];
        eexists (Executed key _ :: ext); cbn; rewrite Hext;
        (split; [reflexivity|]); constructor; [exact I|exact Hall|exact I|exact Hall].
    - exists []. split; [reflexivity|constructor]. }
  destruct HP as (ext & Hext & Hall). exists ext. cbn. rewrite Hext. auto.
Qed.

Lemma scrape_trials_effects_witness :
  exists total ext,
    Return 2%nat = Return total /\
    trace Sample.bounded_run = Closed :: (ext ++ Connected :: trace Sample.fresh)%list /\
    Forall (run_event (Some "diabetes") None None false) ext.
Proof.
  destruct (scrape_trials_effects (H:=Sample.engine) Sample.two_pages Sample.ticking
              1 (Some "diabetes") None None (Some 2) false Sample.fresh
              (Return 2%nat) Sample.bounded_run)
    as [[Hr _]|[[Hr _]|Hrun]].
  - vm_compute. reflexivity.
  - discriminate Hr.
  - discriminate Hr.
  - exact Hrun.
Defined.

(** X9. A run keeps every record: whatever the run does and however it
    ends, each record that the table held before is still there after,
    with the same [id], [nct_id] and [created_at], and its [search_terms],
    when it had any, is the beginning of the [search_terms] it has now. *)
Theorem scrape_trials_keeps_records `{Engine}
    (network : nat -> gmap string json -> reply) (now : nat -> Z) (fuel : nat)
    (c i o : option string) (max_trials : option Z) (ro : bool)
    (w : world) (r : result nat) (w' : world) :
  scrape_trials network now fuel c i o max_trials ro w = Some (r, w') ->
  table_kept (table_of (database w)) (table_of (database w')).
Proof.
  intros Hrun.
  apply scrape_trials_cases in Hrun
    as [(_ & _ & ->)|[(_ & _ & _ & ->)|(_ & _ & total & db & w1 & Hloop & _ & ->)]];
    [apply table_kept_refl|apply table_kept_refl|].
  refine (scrape_loop_invariant network now c i o max_trials ro _
            (fun _ db _ => table_kept (table_of (database w)) (clinical_trials db))
            _ _ _ fuel JNull 0%nat _ _ total db w1 _ Hloop); cbv beta.
  - auto.
  - auto.
  - intros t d w0 key doc Hkept.
    destruct (insert_trial d key doc _ (now _)) as [res d1] eqn:Hins.
    apply insert_trial_kept in Hins.
    destruct res; eapply table_kept_trans; eassumption.
  - apply table_kept_refl.
Qed.

Lemma scrape_trials_keeps_records_witness :
  exists new,
    table_of (database Sample.second_run) !! "NCT01" = Some new /\
    row_kept
      {| id := 1; nct_id := "NCT01"; data := Sample.study "NCT01" "COMPLETED";
         has_results := Some true; overall_status := Some "COMPLETED";
         phase := Some (Text.quoted "PHASE2");
         search_terms := Some "condition:diabetes";
         created_at := 1000; last_updated_at := 1000 |} new.
Proof.
  refine (scrape_trials_keeps_records (H:=Sample.engine) Sample.two_pages
            Sample.ticking 2 None (Some "insulin") None None false
            Sample.after_all (Return 4%nat) Sample.second_run _ "NCT01" _ _).
  - vm_compute. reflexivity.
  - vm_compute. reflexivity.
Defined.

(** X10. Every record stored in a run carries the annotation of the run:
    a run that returns [total] has added [total] identifiers to the stored
    ones, and for each of them the table holds afterwards the record of
    that identifier, with the annotation of the run occurring in its
    [search_terms]. *)
Theorem scrape_trials_annotates `{Engine}
    (network : nat -> gmap string json -> reply) (now : nat -> Z) (fuel : nat)
    (c i o : option string) (max_trials : option Z) (ro : bool)
    (w : world) (total : nat) (w' : world) :
  scrape_trials network now fuel c i o max_trials ro w = Some (Return total, w') ->
  exists news,
    stored (trace w') = (stored (trace w) ++ news)%list /\
    List.length news = total /\
    forall nct, nct ∈ news ->
      exists key row cur,
        Sql.varchar 255 nct = Return key /\
        table_of (database w') !! key = Some row /\
        search_terms row = Some cur /\
        Text.occurs (search_terms_str c i o ro) cur.
Proof.
  intros Hrun.
  apply scrape_trials_cases in Hrun
    as [(_ & Hr & _)|[(_ & _ & Hr & _)|(_ & _ & total' & db & w1 & Hloop & Hr & ->)]];
    [discriminate|discriminate|]. injection Hr as <-.
  set (terms := search_terms_str c i o ro) in *.
  pose (covered := fun (t : gmap string row) (nct : string) =>
          exists key row cur,
            Sql.varchar 255 nct = Return key /\ t !! key = Some row /\
            search_terms row = Some cur /\ Text.occurs terms cur).
  assert (Hmono : forall t t' nct, table_kept t t' -> covered t nct -> covered t' nct).
  { intros t t' nct Hkept (key & row & cur & Hk & Hrow & Hcur & Hocc).
    destruct (Hkept key row Hrow) as (row' & Hrow' & _ & _ & _ & Hterms).
    destruct (Hterms cur Hcur) as (cur' & Hcur' & Hpre).
    exists key, row', cur'. repeat split; auto.
    eapply occurs_extended; eassumption. }
  pose (P := fun (total : nat) (db : ClinicalTrialsDB) (w1 : world) =>
               exists ext, trace w1 = (ext ++ Connected :: trace w)%list /\
                           total = List.length (stored ext) /\
                           forall nct, nct ∈ stored ext -> covered (clinical_trials db) nct).
  assert (HP : P total db w1).
  { refine (scrape_loop_invariant network now c i o max_trials ro terms P _ _ _
              fuel JNull 0%nat _ _ total db w1 _ Hloop).
    - intros t d w0 token (ext & Hext & Hlen & Hcov).
      exists (Requested (build_params c i o token ro) :: ext). cbn.
      rewrite Hext. auto.
    - intros t d w0 (ext & Hext & Hlen & Hcov).
      exists (Slept 4 :: ext). cbn. rewrite Hext. auto.
    - intros t d w0 key doc (ext & Hext & Hlen & Hcov).
      destruct (insert_trial d key doc terms (now _)) as [res d1] eqn:Hins.
      pose proof (insert_trial_kept _ _ _ _ _ _ _ Hins) as Hkept.
      destruct res as [rid|e].
      + exists (Executed key true :: ext). cbn. rewrite Hext.
        split; [reflexivity|]. split; [rewrite length_app; cbn; lia|].
        intros nct Hin. apply elem_of_app in Hin as [Hin|Hin].
        * eapply Hmono; eauto.
        * apply list_elem_of_singleton in Hin as ->.
          exact (insert_trial_covered _ _ _ _ _ _ _ Hins).
      + exists (Executed key false :: ext). cbn. rewrite Hext.
        split; [reflexivity|]. split; [exact Hlen|].
        intros nct Hin. eapply Hmono; eauto.
    - exists []. split; [reflexivity|]. split; [reflexivity|].
      intros nct Hin. now apply elem_of_nil in Hin. }
  destruct HP as (ext & Hext & Hlen & Hcov).
  exists (stored ext). cbn [close trace stored]. rewrite Hext, stored_app.
  cbn [stored]. split; [reflexivity|]. split; [now rewrite Hlen|exact Hcov].
Qed.

Lemma scrape_trials_annotates_witness :
  exists news,
    stored (trace Sample.bounded_run) = (stored (trace Sample.fresh) ++ news)%list /\
    List.length news = 2%nat /\
    forall nct, nct ∈ news ->
      exists key row cur,
        Sql.varchar 255 nct = Return key /\
        table_of (database Sample.bounded_run) !! key = Some row /\
        search_terms row = Some cur /\
        Text.occurs (search_terms_str (Some "diabetes") None None false) cur.
Proof.
  refine (scrape_trials_annotates (H:=Sample.engine) Sample.two_pages Sample.ticking
            1 (Some "diabetes") None None (Some 2) false Sample.fresh
            2%nat Sample.bounded_run _).
  vm_compute. reflexivity.
Defined.

(** X11. A run leaves alone the [search_terms] that already hold its
    annotation: a record in whose [search_terms] the annotation of the run
    occurs before the run has the same [search_terms] after it, however
    often the run meets the record. *)
Theorem scrape_trials_keeps_annotated `{Engine}
    (network : nat -> gmap string json -> reply) (now : nat -> Z) (fuel : nat)
    (c i o : option string) (max_trials : option Z) (ro : bool)
    (w : world) (r : result nat) (w' : world) :
  scrape_trials network now fuel c i o max_trials ro w = Some (r, w') ->
  forall key row cur,
    table_of (database w) !! key = Some row ->
    search_terms row = Some cur ->
    Text.occurs (search_terms_str c i o ro) cur ->
    exists row', table_of (database w') !! key = Some row' /\
                 search_terms row' = Some cur.
Proof.
  intros Hrun key row cur Hrow Hcur Hocc.
  apply scrape_trials_cases in Hrun
    as [(_ & _ & ->)|[(_ & _ & _ & ->)|(_ & _ & total & db & w1 & Hloop & _ & ->)]];
    [eauto|eauto|].
  refine (scrape_loop_invariant network now c i o max_trials ro _
            (fun _ db _ => exists row', clinical_trials db !! key = Some row' /\
                                        search_terms row' = Some cur)
            _ _ _ fuel JNull 0%nat _ _ total db w1 _ Hloop); cbv beta.
  - auto.
  - auto.
  - intros t d w0 key' doc (row1 & Hrow1 & Hcur1).
    destruct (insert_trial d key' doc _ (now _)) as [res d1] eqn:Hins.
    apply insert_trial_table in Hins
      as [(e & -> & ->)|(new & _ & _ & -> & -> & _)]; [eauto|].
    destruct (decide (nct_id new = key)) as [Heq|Hne].
    + rewrite Heq, Hrow1, lookup_insert_eq. eexists. split; [reflexivity|].
      cbn. rewrite Hcur1. now apply merge_search_terms_present.
    + rewrite lookup_insert_ne by exact Hne. eauto.
  - eauto.
Qed.

Lemma scrape_trials_keeps_annotated_witness :
  exists row',
    table_of (database Sample.same_again) !! "NCT01" = Some row' /\
    search_terms row' = Some "condition:diabetes".
Proof.
  refine (scrape_trials_keeps_annotated (H:=Sample.engine) Sample.two_pages
            Sample.ticking 2 (Some "diabetes") None None None false
            Sample.after_all (Return 4%nat) Sample.same_again _
            "NCT01"
            {| id := 1; nct_id := "NCT01"; data := Sample.study "NCT01" "COMPLETED";
               has_results := Some true; overall_status := Some "COMPLETED";
               phase := Some (Text.quoted "PHASE2");
               search_terms := Some "condition:diabetes";
               created_at := 1000; last_updated_at := 1000 |}
            "condition:diabetes" _ _ _).
  - vm_compute. reflexivity.
  - vm_compute. reflexivity.
  - reflexivity.
  - apply TextFacts.occurs_refl.
Defined.

(** X12. A run adds at most as many records as it reports: after a run
    that returns [total], the table has at most [total] records more than
    before (fewer when the run met a record again). *)
Theorem scrape_trials_size `{Engine}
    (network : nat -> gmap string json -> reply) (now : nat -> Z) (fuel : nat)
    (c i o : option string) (max_trials : option Z) (ro : bool)
    (w : world) (total : nat) (w' : world) :
  scrape_trials network now fuel c i o max_trials ro w = Some (Return total, w') ->
  (size (table_of (database w')) <= size (table_of (database w)) + total)%nat.
Proof.
  intros Hrun.
  apply scrape_trials_cases in Hrun
    as [(_ & Hr & _)|[(_ & _ & Hr & _)|(_ & _ & total' & db & w1 & Hloop & Hr & ->)]];
    [discriminate|discriminate|]. injection Hr as <-.
  refine (scrape_loop_invariant network now c i o max_trials ro _
            (fun total db _ =>
               (size (clinical_trials db) <= size (table_of (database w)) + total)%nat)
            _ _ _ fuel JNull 0%nat _ _ total db w1 _ Hloop); cbv beta.
  - auto.
  - auto.
  - intros t d w0 key doc Hsize.
    destruct (insert_trial d key doc _ (now _)) as [res d1] eqn:Hins.
    apply insert_trial_table in Hins
      as [(e & -> & ->)|(new & _ & _ & -> & -> & _)]; [exact Hsize|].
    destruct (clinical_trials d !! nct_id new) as [old|] eqn:Hold.
    + rewrite map_size_insert_Some by eauto. lia.
    + rewrite map_size_insert_None by exact Hold. lia.
  - cbn. unfold table_of. lia.
Qed.

Lemma scrape_trials_size_witness :
  (size (table_of (database Sample.same_again))
   <= size (table_of (database Sample.after_all)) + 4)%nat.
Proof.
  refine (scrape_trials_size (H:=Sample.engine) Sample.two_pages
            Sample.ticking 2 (Some "diabetes") None None None false
            Sample.after_all 4%nat Sample.same_again _).
  vm_compute. reflexivity.
Defined.

(** ** scrape_trials: the bound, the batch, the annotation *)

Section BoundMore.
Context `{Engine}.
Variable network : nat -> gmap string json -> reply.
Variable now : nat -> Z.

(** The bound is consulted after a record is stored, on a total that is
    not 0. *)
Lemma scrape_loop_same_bound_succ m1 m2 :
  (forall total, bound_reached m1 (S total) = bound_reached m2 (S total)) ->
  forall fuel c i o ro terms tok total db w,
    scrape_loop network now fuel c i o m1 ro terms tok total db w =
    scrape_loop network now fuel c i o m2 ro terms tok total db w.
Proof.
  intros Hsame.
  assert (Hstudy : forall terms study total db w,
            process_study now terms m1 study total db w =
            process_study now terms m2 study total db w).
  { intros. rewrite !process_study_cases.
    destruct (submitted study) as [nct|]; [|reflexivity].
    destruct (key_of nct) as [k|]; [|reflexivity].
    destruct (insert_trial _ _ _ _ _) as [[rid|e] db1]; [|reflexivity].
    now rewrite Hsame. }
  assert (Hstudies : forall terms studies total db w,
            process_studies now terms m1 studies total db w =
            process_studies now terms m2 studies total db w).
  { intros terms studies. induction studies as [|study rest IH]; intros total db w.
    - reflexivity.
    - cbn [process_studies]. rewrite Hstudy.
      destruct (process_study now terms m2 study total db w)
        as [[|] [[total1 db1] w1]]; [apply IH|reflexivity]. }
  induction fuel as [|fuel IH]; intros c i o ro terms tok total db w.
  - reflexivity.
  - rewrite !scrape_loop_unfold.
    assert (Hpage : page_body network now c i o m1 ro terms tok total db w =
                    page_body network now c i o m2 ro terms tok total db w).
    { unfold page_body.
      destruct (search_studies network c i o tok ro w) as [[response|e] w1];
        [|reflexivity].
      destruct response; try reflexivity.
      destruct (negb _ || negb _); [reflexivity|].
      destruct (negb (Py.truthy _)); [reflexivity|].
      destruct (iterate _); [|reflexivity]. now rewrite Hstudies. }
    rewrite Hpage.
    destruct (page_body network now c i o m2 ro terms tok total db w)
      as [[why|tok'] [[total1 db1] w1]]; [reflexivity|apply IH].
Qed.

(** A bound that the run without bound does not reach changes nothing. *)
Lemma scrape_loop_slack (k : nat) c i o ro terms :
  (0 < k)%nat ->
  forall fuel tok total db w N dbU wU,
    (total < k)%nat -> (N < k)%nat ->
    scrape_loop network now fuel c i o None ro terms tok total db w
      = Some (N, dbU, wU) ->
    scrape_loop network now fuel c i o (Some (Z.of_nat k)) ro terms tok total db w
      = Some (N, dbU, wU).
Proof.
  intros Hk. induction fuel as [|fuel IH];
    intros tok total db w N dbU wU Htotal HN; [discriminate|].
  rewrite !scrape_loop_unfold.
  destruct (page_body network now c i o None ro terms tok total db w)
    as [stU [[total1 db1] w1]] eqn:Hpage.
  destruct (page_body_bound network now k _ _ _ _ _ _ _ _ _ _ _ _ _ Hk Htotal Hpage)
    as [[Ht1 ->]|(db_k & w_k & key & before & after & Hpk & Hkey & (Hafter & _))].
  - destruct stU as [why|tok']; [auto|]. intros Hrest. now apply IH.
  - intros Hrest. exfalso.
    apply page_body_grows in Hpage as (ext1 & (Hext1 & _) & Ht1 & _).
    apply page_body_grows in Hpk as (ext_k & (Hext_k & _) & Htk & _).
    rewrite Hext_k, app_assoc, Hext1 in Hafter.
    apply app_inv_tail in Hafter. subst ext1.
    rewrite stored_app, length_app in Ht1.
    assert (total1 <= N)%nat; [|lia].
    destruct stU as [why|tok'].
    + injection Hrest as <- _ _. lia.
    + apply scrape_loop_grows in Hrest as (ext & _ & ->). lia.
Qed.

End BoundMore.

(** X13. The bound and the count: when the run without bound returns [N],
    the run with a bound [k >= 1] returns the smaller of [k] and [N]; and
    when [N] is below [k], it is the same run, effect by effect. *)
Theorem scrape_trials_bound_min `{Engine}
    (network : nat -> gmap string json -> reply) (now : nat -> Z) (fuel : nat)
    (c i o : option string) (ro : bool) (w : world) (k N : nat) (w_all : world) :
  (0 < k)%nat ->
  scrape_trials network now fuel c i o None ro w = Some (Return N, w_all) ->
  exists w_k,
    scrape_trials network now fuel c i o (Some (Z.of_nat k)) ro w
      = Some (Return (Nat.min k N), w_k) /\
    ((N < k)%nat -> w_k = w_all).
Proof.
  intros Hk Hall. unfold scrape_trials in *.
  destruct (any_filter c i o); [|discriminate]. cbn [negb] in *.
  destruct (open_db w) as [[db0|e] w0]; [|discriminate].
  destruct (scrape_loop network now fuel c i o None ro _ JNull 0 db0 w0)
    as [[[N' dbU] wU]|] eqn:HloopU; [|discriminate].
  injection Hall as -> <-.
  destruct (Nat.lt_ge_cases N k) as [Hlt|Hge].
  - rewrite (scrape_loop_slack network now k c i o ro _ Hk
               fuel JNull 0%nat db0 w0 N dbU wU Hk Hlt HloopU).
    exists (close dbU wU). rewrite Nat.min_r by lia. auto.
  - destruct (scrape_loop_bound network now k c i o ro _ Hk
                fuel JNull 0%nat db0 w0 N dbU wU Hk Hge HloopU)
      as (db_k & w_k & key & before & after & -> & _).
    exists (close db_k w_k). rewrite Nat.min_l by lia.
    split; [reflexivity|lia].
Qed.

Lemma scrape_trials_bound_min_witness :
  exists w_k,
    scrape_trials (H:=Sample.engine) Sample.two_pages Sample.ticking 2
      (Some "diabetes") None None (Some (Z.of_nat 7)) false Sample.fresh
      = Some (Return (Nat.min 7 4), w_k) /\
    ((4 < 7)%nat -> w_k = Sample.after_all).
Proof.
  refine (scrape_trials_bound_min (H:=Sample.engine) Sample.two_pages
            Sample.ticking 2 (Some "diabetes") None None false Sample.fresh
            7%nat 4%nat Sample.after_all _ _).
  - lia.
  - vm_compute. reflexivity.
Defined.

(** X14. A negative bound is the bound 1: [max_trials < 0] is truthy and
    [total_stored >= max_trials] holds at once, so the run returns right
    after the first record it stores. *)
Theorem scrape_trials_negative_bound `{Engine}
    (network : nat -> gmap string json -> reply) (now : nat -> Z) (fuel : nat)
    (c i o : option string) (ro : bool) (w : world) (m : Z) :
  m < 0 ->
  scrape_trials network now fuel c i o (Some m) ro w =
  scrape_trials network now fuel c i o (Some 1) ro w.
Proof.
  intros Hm. unfold scrape_trials.
  destruct (negb (any_filter c i o)); [reflexivity|].
  destruct (open_db w) as [[db0|e] w0]; [|reflexivity].
  rewrite (scrape_loop_same_bound_succ network now (Some m) (Some 1));
    [reflexivity|].
  intros total. unfold bound_reached.
  destruct (Z.eqb_spec m 0); [lia|].
  destruct (Z.leb_spec m (Z.of_nat (S total))); [|lia].
  destruct (Z.leb_spec 1 (Z.of_nat (S total))); [reflexivity|lia].
Qed.

Lemma scrape_trials_negative_bound_witness :
  scrape_trials (H:=Sample.engine) Sample.two_pages Sample.ticking 2
    (Some "diabetes") None None (Some (-5)) false Sample.fresh =
  scrape_trials (H:=Sample.engine) Sample.two_pages Sample.ticking 2
    (Some "diabetes") None None (Some 1) false Sample.fresh.
Proof.
  apply (scrape_trials_negative_bound (H:=Sample.engine) Sample.two_pages
           Sample.ticking 2 (Some "diabetes") None None false Sample.fresh (-5)).
  lia.
Defined.

(** X15. Fault isolation in a batch: the studies for which the inner
    [try] block does not come to the call of [insert_trial] (not an object,
    a module that is not an object, no identifier) play no part; the batch
    ends as it does on the other studies alone, in the same state. *)
Theorem process_studies_skips_unsubmitted `{Engine} (now : nat -> Z)
    (terms : string) (max_trials : option Z) (studies : list json)
    (total : nat) (db : ClinicalTrialsDB) (w : world) :
  process_studies now terms max_trials studies total db w =
  process_studies now terms max_trials
    (filter (fun study => is_Some (submitted study)) studies) total db w.
Proof.
  revert total db w. induction studies as [|study rest IH]; intros total db w;
    [reflexivity|].
  rewrite filter_cons.
  destruct (decide (is_Some (submitted study))) as [Hsub|Hsub].
  - cbn [process_studies].
    destruct (process_study now terms max_trials study total db w)
      as [[|] [[total1 db1] w1]]; [apply IH|reflexivity].
  - cbn [process_studies]. rewrite process_study_cases.
    destruct (submitted study) as [nct|]; [exfalso; apply Hsub; eauto|].
    apply IH.
Qed.

(** X16. A storage error ends the storing of a batch: on a connection
    whose transaction has failed, a batch goes through all its studies,
    but the total, the table and the stored identifiers stay as they
    are. *)
Theorem process_studies_after_failure `{Engine} (now : nat -> Z)
    (terms : string) (max_trials : option Z) (studies : list json)
    (total : nat) (db : ClinicalTrialsDB) (w : world) :
  failed_transaction db = true ->
  exists w',
    process_studies now terms max_trials studies total db w
      = (NextStudy, (total, db, w')) /\
    stored (trace w') = stored (trace w) /\
    statements (trace w')
      = (statements (trace w)
         + List.length (omap (fun study => submitted study ≫= key_of) studies))%nat.
Proof.
  revert total db w. induction studies as [|study rest IH]; intros total db w Hfailed.
  { exists w. cbn. rewrite Nat.add_0_r. auto. }
  cbn [process_studies omap list_omap]. rewrite process_study_cases.
  destruct (submitted study) as [nct|]; cbn [mbind option_bind]; [|now apply IH].
  destruct (key_of nct) as [key|]; [|now apply IH].
  unfold insert_trial. rewrite Hfailed.
  destruct (IH total db (record (Executed key false) w) Hfailed)
    as (w' & -> & Hst & Hn).
  exists w'. split; [reflexivity|]. split; [exact Hst|].
  rewrite Hn. cbn. lia.
Qed.

Lemma process_studies_after_failure_witness :
  exists w',
    process_studies (H:=Sample.engine) Sample.ticking "condition:brain" None
      [Sample.study "NCT02" "RECRUITING"; Sample.anonymous_study;
       Sample.study "NCT03" "COMPLETED"] 1 Sample.poisoned Sample.fresh
      = (NextStudy, (1%nat, Sample.poisoned, w')) /\
    stored (trace w') = stored (trace Sample.fresh) /\
    statements (trace w')
      = (statements (trace Sample.fresh)
         + List.length
             (omap (fun study => submitted study ≫= key_of (H:=Sample.engine))
                [Sample.study "NCT02" "RECRUITING"; Sample.anonymous_study;
                 Sample.study "NCT03" "COMPLETED"]))%nat.
Proof.
  refine (process_studies_after_failure (H:=Sample.engine) Sample.ticking
            "condition:brain" None _ 1 Sample.poisoned Sample.fresh _).
  vm_compute. reflexivity.
Defined.

(** The items joined by [str.join] occur in the result. *)
Lemma occurs_concat (sep x : string) (l : list string) :
  In x l -> Text.occurs x (String.concat sep l).
Proof.
  induction l as [|y l IH]; [contradiction|].
  intros [->|Hin].
  - destruct l as [|z l].
    + apply TextFacts.occurs_refl.
    + exists "", (sep +:+ String.concat sep (z :: l)). reflexivity.
  - destruct l as [|z l]; [contradiction|].
    destruct (IH Hin) as (pre & post & Heq).
    exists (y +:+ sep +:+ pre), post.
    change (String.concat sep (y :: z :: l))
      with (y +:+ sep +:+ String.concat sep (z :: l)).
    rewrite Heq, !TextFacts.append_assoc. reflexivity.
Qed.

(** X17. The annotation records the filters of the run: each filter that
    is supplied occurs in it behind its tag ([condition:],
    [intervention:], [other_terms:]), [has_results:true] occurs in it when
    [results_only] is set, and the annotation of a run that passes the
    validation is never empty. *)
Theorem search_terms_str_records (c i o : option string) (ro : bool) :
  (forall s, c = Some s -> s <> "" ->
             Text.occurs ("condition:" +:+ s) (search_terms_str c i o ro)) /\
  (forall s, i = Some s -> s <> "" ->
             Text.occurs ("intervention:" +:+ s) (search_terms_str c i o ro)) /\
  (forall s, o = Some s -> s <> "" ->
             Text.occurs ("other_terms:" +:+ s) (search_terms_str c i o ro)) /\
  (ro = true -> Text.occurs "has_results:true" (search_terms_str c i o ro)) /\
  (any_filter c i o = true -> search_terms_str c i o ro <> "").
Proof.
  unfold search_terms_str.
  split; [|split; [|split; [|split]]].
  - intros s -> Hs. destruct s as [|a s]; [contradiction|].
    apply occurs_concat.
    destruct i as [[|? ?]|], o as [[|? ?]|], ro; cbn; auto.
  - intros s -> Hs. destruct s as [|a s]; [contradiction|].
    apply occurs_concat.
    destruct c as [[|? ?]|], o as [[|? ?]|], ro; cbn; auto.
  - intros s -> Hs. destruct s as [|a s]; [contradiction|].
    apply occurs_concat.
    destruct c as [[|? ?]|], i as [[|? ?]|], ro; cbn; auto.
  - intros ->. apply occurs_concat.
    destruct c as [[|? ?]|], i as [[|? ?]|], o as [[|? ?]|]; cbn; auto 10.
  - destruct c as [[|? ?]|], i as [[|? ?]|], o as [[|? ?]|], ro;
      try discriminate; intros _; vm_compute; discriminate.
Qed.

(** ** main *)

(** X18. [main] and [scrape_trials] agree on the validation: without any
    filter [main] leaves with status 2 before anything happens, so that the
    [ValueError] of [scrape_trials] never comes out of [main]; otherwise
    [main] ends as [scrape_trials] does, with the summary of the total
    returned, or with [OperationalError] when the database cannot be
    reached and nothing else has happened. *)
Theorem main_outcomes `{Engine}
    (network : nat -> gmap string json -> reply) (now : nat -> Z) (fuel : nat)
    (a : Cli.args) (w : world) :
  (any_filter (Cli.condition a) (Cli.intervention a) (Cli.other_terms a) = false ->
   main network now fuel a w = Some (SystemExit 2, w)) /\
  (forall f w',
      main network now fuel a w = Some (f, w') ->
      f <> Uncaught ValueError /\
      ((f = SystemExit 2 /\ w' = w) \/
       (f = Uncaught OperationalError /\ w' = w) \/
       (exists total,
           f = Summary total /\
           scrape_trials network now fuel (Cli.condition a) (Cli.intervention a)
             (Cli.other_terms a) (Cli.max_trials a) (Cli.results_only a) w
             = Some (Return total, w')))).
Proof.
  unfold main. split.
  - intros ->. reflexivity.
  - intros f w'.
    destruct (any_filter _ _ _) eqn:Hany; cbn [negb].
    2:{ intros [= <- <-]. split; [discriminate|auto]. }
    destruct (scrape_trials _ _ _ _ _ _ _ _ _) as [[r w1]|] eqn:Hrun;
      [|discriminate].
    apply scrape_trials_cases in Hrun as Hcases.
    destruct Hcases
      as [(Hno & _)|[(_ & _ & -> & ->)|(_ & _ & total & db & w2 & _ & -> & ->)]].
    + congruence.
    + intros [= <- <-]. split; [discriminate|auto].
    + intros [= <- <-]. split; [discriminate|]. right. right. eauto.
Qed.

(** ** Edges: a document the table refuses, a registry without end, the
    bound as a limit *)



Section LoopEdges.
Context `{Engine}.
Variable network : nat -> gmap string json -> reply.
Variable now : nat -> Z.

(** A batch without a submitted study changes nothing. *)
Lemma process_studies_none_submitted terms max_trials studies total db w :
  (forall study, study ∈ studies -> submitted study = None) ->
  process_studies now terms max_trials studies total db w
    = (NextStudy, (total, db, w)).
Proof.
  induction studies as [|study rest IH]; intros Hnone; [reflexivity|].
  cbn [process_studies]. rewrite process_study_cases.
  rewrite (Hnone study (list_elem_of_here _ _)). apply IH.
  intros s Hs. apply Hnone. now right.
Qed.

(** Under a bound [k >= 1] not yet reached, a batch ends below the bound
    or returns with the total [k]. *)
Lemma process_studies_within (k : nat) terms studies :
  (0 < k)%nat ->
  forall total db w sig total' db' w',
    (total < k)%nat ->
    process_studies now terms (Some (Z.of_nat k)) studies total db w
      = (sig, (total', db', w')) ->
    (sig = NextStudy /\ (total' < k)%nat) \/ (sig = ReturnTotal /\ total' = k).
Proof.
  intros Hk. induction studies as [|study rest IH];
    intros total db w sig total' db' w' Htotal.
  { intros [= <- <- <- <-]. auto. }
  cbn [process_studies].
  destruct (process_study_bound now k terms study total db w Hk Htotal)
    as (total1 & db1 & w1 & _ & [[Ht1 ->]|(-> & _ & ->)]).
  - now apply IH.
  - intros [= <- <- <- <-]. auto.
Qed.

Lemma scrape_loop_within (k : nat) c i o ro terms :
  (0 < k)%nat ->
  forall fuel tok total db w total' db' w',
    (total < k)%nat ->
    scrape_loop network now fuel c i o (Some (Z.of_nat k)) ro terms tok total db w
      = Some (total', db', w') ->
    (total' <= k)%nat.
Proof.
  intros Hk. induction fuel as [|fuel IH];
    intros tok total db w total' db' w' Htotal; [discriminate|].
  rewrite scrape_loop_unfold. unfold page_body.
  destruct (search_studies network c i o tok ro w) as [[response|e] w1];
    [|intros [= <- <- <-]; lia].
  destruct response as [| | | | | |fields]; try (intros [= <- <- <-]; lia).
  destruct (negb _ || negb _); [intros [= <- <- <-]; lia|].
  destruct (negb (Py.truthy _)); [intros [= <- <- <-]; lia|].
  destruct (iterate _) as [items|e]; [|intros [= <- <- <-]; lia].
  destruct (process_studies now terms (Some (Z.of_nat k)) items total db w1)
    as [sig [[total2 db2] w2]] eqn:Hitems.
  destruct (process_studies_within k terms items Hk _ _ _ _ _ _ _ Htotal Hitems)
    as [[-> Ht2]|[-> ->]].
  - destruct (negb (Py.truthy _)); [intros [= <- <- <-]; lia|]. now apply IH.
  - intros [= <- <- <-]. lia.
Qed.

(** Pages that hold studies, none of them submitted, and carry a token
    keep the loop turning. *)
Lemma scrape_loop_endless c i o max_trials ro terms fields studies token :
  (forall n params, read_reply (network n params) = Return (JObj fields)) ->
  assoc "studies" fields = Some (JArr studies) ->
  studies <> [] ->
  (forall study, study ∈ studies -> submitted study = None) ->
  assoc "nextPageToken" fields = Some token ->
  Py.truthy token = true ->
  forall fuel tok total db w,
    scrape_loop network now fuel c i o max_trials ro terms tok total db w = None.
Proof.
  intros Hnet Hstudies Hsome Hnone Hnext Htruthy.
  induction fuel as [|fuel IH]; intros tok total db w; [reflexivity|].
  rewrite scrape_loop_unfold. unfold page_body.
  rewrite (search_studies_answered network (fun _ => JObj fields) c i o tok ro w Hnet).
  destruct (has_key_assoc _ _ _ Hstudies) as [-> ->]. cbn [negb orb].
  rewrite Hstudies. change (default (JArr []) (Some (JArr studies))) with (JArr studies).
  destruct studies as [|study rest]; [contradiction|].
  cbn [Py.truthy negb iterate].
  rewrite (process_studies_none_submitted _ _ _ _ _ _ Hnone), Hnext.
  change (default JNull (Some token)) with token. rewrite Htruthy. apply IH.
Qed.

End LoopEdges.

(** X20. The bound limits the records, not the pages: when the registry
    answers every request with a page that holds studies, none of which
    comes to be stored, and that carries a next-page token, the run does
    not end, whatever the bound and however many pages it is given. *)
Theorem scrape_trials_never_ends `{Engine}
    (network : nat -> gmap string json -> reply) (now : nat -> Z)
    (c i o : option string) (max_trials : option Z) (ro : bool) (w : world)
    (fields : list (string * json)) (studies : list json) (token : json) :
  any_filter c i o = true ->
  database_up w = true ->
  (forall n params, read_reply (network n params) = Return (JObj fields)) ->
  assoc "studies" fields = Some (JArr studies) ->
  studies <> [] ->
  (forall study, study ∈ studies -> submitted study = None) ->
  assoc "nextPageToken" fields = Some token ->
  Py.truthy token = true ->
  forall fuel, scrape_trials network now fuel c i o max_trials ro w = None.
Proof.
  intros Hany Hup Hnet Hstudies Hsome Hnone Hnext Htruthy fuel.
  unfold scrape_trials, open_db. rewrite Hany, Hup. cbn [negb].
  now rewrite (scrape_loop_endless network now c i o max_trials ro _
                 fields studies token Hnet Hstudies Hsome Hnone Hnext Htruthy).
Qed.

Lemma scrape_trials_never_ends_witness :
  scrape_trials (H:=Sample.engine) Sample.endless Sample.ticking 1000
    (Some "diabetes") None None (Some 1) false Sample.fresh = None.
Proof.
  refine (scrape_trials_never_ends (H:=Sample.engine) Sample.endless
            Sample.ticking (Some "diabetes") None None (Some 1) false Sample.fresh
            [("studies", JArr [Sample.anonymous_study]);
             ("nextPageToken", JStr "next")]
            [Sample.anonymous_study] (JStr "next") _ _ _ _ _ _ _ _ 1000%nat).
  - reflexivity.
  - reflexivity.
  - intros n params. reflexivity.
  - reflexivity.
  - discriminate.
  - intros study Hin. apply list_elem_of_singleton in Hin as ->. reflexivity.
  - reflexivity.
  - reflexivity.
Defined.

(** X21. The bound is never exceeded: a run with a bound [k >= 1] that
    returns, returns a total of at most [k], whatever the registry
    answers. *)
Theorem scrape_trials_within_bound `{Engine}
    (network : nat -> gmap string json -> reply) (now : nat -> Z) (fuel : nat)
    (c i o : option string) (ro : bool) (w : world) (k total : nat) (w' : world) :
  (0 < k)%nat ->
  scrape_trials network now fuel c i o (Some (Z.of_nat k)) ro w
    = Some (Return total, w') ->
  (total <= k)%nat.
Proof.
  intros Hk Hrun.
  apply scrape_trials_cases in Hrun
    as [(_ & Hr & _)|[(_ & _ & Hr & _)|(_ & _ & total' & db & w1 & Hloop & Hr & _)]];
    [discriminate|discriminate|]. injection Hr as <-.
  exact (scrape_loop_within network now k c i o ro _ Hk _ _ _ _ _ _ _ _ Hk Hloop).
Qed.

Lemma scrape_trials_within_bound_witness :
  exists total w',
    scrape_trials (H:=Sample.engine) Sample.two_pages Sample.ticking 2
      (Some "diabetes") None None (Some (Z.of_nat 3)) false Sample.fresh
      = Some (Return total, w') /\
    (total <= 3)%nat.
Proof.
  eexists. eexists. split; [vm_compute; reflexivity|].
  refine (scrape_trials_within_bound (H:=Sample.engine) Sample.two_pages
            Sample.ticking 2 (Some "diabetes") None None false Sample.fresh
            3%nat _ _ _ _).
  - lia.
  - vm_compute. reflexivity.
Defined.
